(** * The CI configuration of aeon, as an executable model

    The repository excerpt holds GitHub Actions workflows and two composite
    actions (numba_cache, cpu_all_extras).  Each YAML document is embedded as a
    Rocq value: a workflow is a record of jobs, a job a list of steps, a step a
    guard ([if:]) and a body ([run:] or [uses:]/[with:]).  Every expression
    between the expression brackets of the YAML becomes a Rocq function of the
    runner it is evaluated on.  A small interpreter gives the steps their
    effect on the runner: the lines appended to the GITHUB_ENV and GITHUB_PATH
    files, the command lines executed, the cache entries restored and saved.

    Left out, as nothing below depends on them: the filters of the triggers
    ([branches:], [paths:], [types:], [cron:]), [permissions:] and
    [environment:] blocks, the [id:] and [shell:] of a step, and the [env:]
    block of a step, which is local to that step.

    An action from outside the repository is kept as a black box: a line of
    the log and whether it succeeds.  What it does besides on the runner
    (actions/setup-python exports variables and a path of its own,
    pre-commit/action keeps a cache of its hook environments) is not
    modelled, nor is what a command line writes.  The variables, the
    directory and the cache entries that the steps of the repository write
    and read (NUMBA_*, CACHING_CICD_RUNNING, CURRENT_DATE, WHEELNAME,
    NUMBA_DISABLE_JIT, <workspace>/.numba_cache, the keys numba-...) are
    taken to be left alone by these actions; the tests fill the directory,
    which a statement about a save takes as given.  Only nick-fields/retry and
    actions/cache, whose behaviour the steps of the repository rely on, are
    given their documented meaning. *)

From Stdlib Require Import String Ascii List Bool Arith Lia.
Import ListNotations.
Open Scope string_scope.

(** ** Expression operators of the workflow language *)

Module Expr.

(** Comparison of strings ignores case. *)
Definition lower_ascii (c : ascii) : ascii :=
  let n := nat_of_ascii c in
  if Nat.leb 65 n && Nat.leb n 90 then ascii_of_nat (n + 32) else c.

Fixpoint lower (s : string) : string :=
  match s with
  | EmptyString => EmptyString
  | String c s' => String (lower_ascii c) (lower s')
  end.

(** [a == b] and [a != b] on strings. *)
Definition gh_eq (a b : string) : bool := String.eqb (lower a) (lower b).
Definition gh_ne (a b : string) : bool := negb (gh_eq a b).

(** The empty string is the only falsy string. *)
Definition truthy (s : string) : bool := negb (String.eqb s "").

(** [c && a || b] with [c] a boolean and [a], [b] strings. *)
Definition and_or (c : bool) (a b : string) : string :=
  if c && truthy a then a else b.

(** [a || b] on strings. *)
Definition or_else (a b : string) : string := if truthy a then a else b.

(** [contains(list, item)]. *)
Definition contains (l : list string) (x : string) : bool :=
  existsb (gh_eq x) l.

(** Strings without a letter: the only string equal to one of them up to
    case is the string itself. *)
Definition letter (d : ascii) : bool :=
  let n := nat_of_ascii d in
  (Nat.leb 65 n && Nat.leb n 90) || (Nat.leb 97 n && Nat.leb n 122).

Fixpoint no_letter (s : string) : bool :=
  match s with
  | EmptyString => true
  | String d s' => negb (letter d) && no_letter s'
  end.

(** A boolean spliced into a string. *)
Definition show_bool (b : bool) : string := if b then "true" else "false".

End Expr.
Import Expr.

(** ** The runner a job executes on *)

Inductive os := Linux | Windows | macOS.

(** [runner.os] *)
Definition os_name (o : os) : string :=
  match o with Linux => "Linux" | Windows => "Windows" | macOS => "macOS" end.

Record date := { d_day : nat; d_month : nat; d_year : nat }.

Definition digit (n : nat) : string :=
  String (ascii_of_nat (48 + n mod 10)) EmptyString.

(** What [date +'%d/%m/%Y'] prints. *)
Definition date_dmy (d : date) : string :=
  digit (d_day d / 10) ++ digit (d_day d) ++ "/" ++
  digit (d_month d / 10) ++ digit (d_month d) ++ "/" ++
  digit (d_year d / 1000) ++ digit (d_year d / 100) ++
  digit (d_year d / 10) ++ digit (d_year d).

(** What a run can read but not change: the [github], [runner], [matrix],
    [secrets], [vars] and [steps] contexts, the clock, the wheel that
    [ls ./dist/aeon-*-none-any.whl] prints, and which commands and third-party
    actions succeed (a command by attempt number). *)
Record context := {
  gh_workspace : string;
  gh_event_name : string;
  gh_workflow : string;
  gh_head_ref : string;
  gh_ref : string;
  gh_pr_number : string;
  gh_issue_id : string;
  gh_comment_id : string;
  gh_label_name : string;
  gh_issue_is_pr : bool;
  gh_pr_labels : list string;
  runner_os : os;
  matrix_os : string;
  matrix_python_version : string;
  secrets : string -> string;
  vars : string -> string;
  step_output : string -> string -> string;
  clock : date;
  wheel_listing : string;
  cmd_ok : string -> nat -> bool;
  action_ok : string -> bool
}.

(** The archive of a directory. *)
Definition content := string.

(** A line of the job log: a command line executed, or an action run. *)
Inductive event :=
| Cmd (line : string)
| Act (ref : string).

(** The runner: the context, the GITHUB_ENV and GITHUB_PATH files (lines in
    the order appended), the directories of the workspace that caches read
    and write, the cache service (most recent entry first), the log, and
    whether a step of the job has failed. *)
Record runner := {
  ctx : context;
  env : list (string * string);
  path : list string;
  files : list (string * content);
  caches : list (string * content);
  log : list event;
  failed : bool
}.

Definition set_env (e : list (string * string)) (r : runner) : runner :=
  {| ctx := ctx r; env := e; path := path r; files := files r;
     caches := caches r; log := log r; failed := failed r |}.

Definition set_path (p : list string) (r : runner) : runner :=
  {| ctx := ctx r; env := env r; path := p; files := files r;
     caches := caches r; log := log r; failed := failed r |}.

Definition set_files (f : list (string * content)) (r : runner) : runner :=
  {| ctx := ctx r; env := env r; path := path r; files := f;
     caches := caches r; log := log r; failed := failed r |}.

Definition set_caches (c : list (string * content)) (r : runner) : runner :=
  {| ctx := ctx r; env := env r; path := path r; files := files r;
     caches := c; log := log r; failed := failed r |}.

Definition add_log (e : event) (r : runner) : runner :=
  {| ctx := ctx r; env := env r; path := path r; files := files r;
     caches := caches r; log := log r ++ [e]; failed := failed r |}.

Definition fail (r : runner) : runner :=
  {| ctx := ctx r; env := env r; path := path r; files := files r;
     caches := caches r; log := log r; failed := true |}.

(** Last binding of a key in a list of bindings appended over time. *)
Fixpoint lookup_last (k : string) (l : list (string * string)) : option string :=
  match l with
  | [] => None
  | (k', v) :: l' =>
      match lookup_last k l' with
      | Some w => Some w
      | None => if String.eqb k k' then Some v else None
      end
  end.

(** [env.NAME]: an unset variable reads as the empty string. *)
Definition env_get (k : string) (r : runner) : string :=
  match lookup_last k (env r) with Some v => v | None => "" end.

(** ** Steps *)

(** One line of a [run:] script. *)
Inductive effect :=
| AppendEnv (k v : string)      (* echo "k=v" >> $GITHUB_ENV *)
| AppendPath (dir : string)     (* echo dir >> $GITHUB_PATH *)
| Shell (cmd : string).         (* any other command line *)

(** The body of a step, its expressions evaluated. *)
Inductive body :=
| Run (script : list effect)
| Retry (timeout_minutes max_attempts : nat) (command : string)
| CacheRestore (dir key : string) (restore_keys : list string)
| CacheSave (dir key : string)
| Uses (action : string) (args : list (string * string)).

(** The [uses:] reference of a body. *)
Definition uses_of (b : body) : option string :=
  match b with
  | Run _ => None
  | Retry _ _ _ => Some "nick-fields/retry@v3"
  | CacheRestore _ _ _ => Some "actions/cache/restore@v4"
  | CacheSave _ _ => Some "actions/cache/save@v4"
  | Uses a _ => Some a
  end.

Record step := {
  s_name : option string;
  s_if : runner -> bool;
  s_body : runner -> body
}.

(** Status check functions.  A guard that names none is wrapped in
    [success() && ...]: that is [when].  In a step of a job, success() reads
    the status of the job; in a step of a composite action, the status of
    the action.  The two agree wherever a composite action runs below: its
    call is a step of a job guarded by success(), alone or with a condition,
    so the action starts on a job that has not failed, and from then on the
    job fails with the action. *)
Definition success (r : runner) : bool := negb (failed r).
Definition always (r : runner) : bool := true.
Definition when (c : runner -> bool) (r : runner) : bool := success r && c r.

(** ** What a step does *)

(** The cache service: the entry with exactly the key, else the most recent
    entry whose key starts with the key, else the same for each restore key
    in turn. *)
Definition has_key (k : string) (e : string * content) : bool :=
  String.eqb (fst e) k.
Definition has_prefix (k : string) (e : string * content) : bool :=
  String.prefix k (fst e).

Fixpoint first_prefix_match (store : list (string * content)) (keys : list string)
  : option (string * content) :=
  match keys with
  | [] => None
  | k :: keys' =>
      match find (has_prefix k) store with
      | Some e => Some e
      | None => first_prefix_match store keys'
      end
  end.

Definition cache_lookup (store : list (string * content)) (key : string)
    (restore_keys : list string) : option (string * content) :=
  match find (has_key key) store with
  | Some e => Some e
  | None => first_prefix_match store (key :: restore_keys)
  end.

Fixpoint read_dir (d : string) (f : list (string * content)) : option content :=
  match f with
  | [] => None
  | (d', c) :: f' => if String.eqb d d' then Some c else read_dir d f'
  end.

Definition write_dir (d : string) (c : content) (f : list (string * content))
  : list (string * content) := (d, c) :: f.

Definition run_effect (e : effect) (r : runner) : runner :=
  match e with
  | AppendEnv k v => set_env (env r ++ [(k, v)]) r
  | AppendPath d => set_path (path r ++ [d]) r
  | Shell cmd =>
      let r' := add_log (Cmd cmd) r in
      if cmd_ok (ctx r) cmd 1 then r' else fail r'
  end.

(** A script stops at its first failing line. *)
Fixpoint run_script (s : list effect) (r : runner) : runner :=
  match s with
  | [] => r
  | e :: s' =>
      let r' := run_effect e r in
      if failed r' then r' else run_script s' r'
  end.

(** nick-fields/retry: the command is run again until it succeeds, at most
    [left] more times; [n] is the number of the attempt. *)
Fixpoint run_retry (cmd : string) (left n : nat) (r : runner) : runner :=
  match left with
  | 0 => fail r
  | S left' =>
      let r' := add_log (Cmd cmd) r in
      if cmd_ok (ctx r) cmd n then r' else run_retry cmd left' (S n) r'
  end.

Definition run_body (b : body) (r : runner) : runner :=
  match b with
  | Run s => run_script s r
  | Retry _ m cmd => run_retry cmd m 1 r
  | CacheRestore d key rks =>
      let r' := add_log (Act "actions/cache/restore@v4") r in
      match cache_lookup (caches r) key rks with
      | Some e => set_files (write_dir d (snd e) (files r)) r'
      | None => r'
      end
  | CacheSave d key =>
      let r' := add_log (Act "actions/cache/save@v4") r in
      match read_dir d (files r) with
      | Some c =>
          if existsb (has_key key) (caches r) then r'
          else set_caches ((key, c) :: caches r) r'
      | None => r'
      end
  | Uses a _ =>
      let r' := add_log (Act a) r in
      if action_ok (ctx r) a then r' else fail r'
  end.

Definition run_step (s : step) (r : runner) : runner :=
  if s_if s r then run_body (s_body s r) r else r.

Definition run_steps (l : list step) (r : runner) : runner :=
  fold_left (fun r s => run_step s r) l r.

(** Constructors for the shapes of step the YAML uses. *)
Definition named (n : string) (b : runner -> body) : step :=
  {| s_name := Some n; s_if := success; s_body := b |}.
Definition unnamed (b : runner -> body) : step :=
  {| s_name := None; s_if := success; s_body := b |}.
Definition guarded (n : string) (c : runner -> bool) (b : runner -> body) : step :=
  {| s_name := Some n; s_if := c; s_body := b |}.

(** ** .github/actions/numba_cache/action.yml *)

Module NumbaCache.

Definition name : string := "Numba cache setup".

Record inputs := {
  cache_name : string;             (* required *)
  runner_os_input : string;        (* required *)
  python_version : string;         (* required *)
  restore_cache : option string    (* default: "true" *)
}.

Definition restore_cache_input (i : inputs) : string :=
  match restore_cache i with Some v => v | None => "true" end.

Definition cpu_features : string :=
  "+64bit +adx +aes +avx +avx2 -avx512bf16 -avx512bitalg -avx512bw -avx512cd -avx512dq -avx512er -avx512f -avx512ifma -avx512pf -avx512vbmi -avx512vbmi2 -avx512vl -avx512vnni -avx512vpopcntdq +bmi +bmi2 -cldemote -clflushopt -clwb -clzero +cmov +cx16 +cx8 -enqcmd +f16c +fma -fma4 +fsgsbase +fxsr -gfni +invpcid -lwp +lzcnt +mmx +movbe -movdir64b -movdiri -mwaitx +pclmul -pconfig -pku +popcnt -prefetchwt1 +prfchw -ptwrite -rdpid +rdrnd +rdseed +rtm +sahf -sgx -sha -shstk +sse +sse2 +sse3 +sse4.1 +sse4.2 -sse4a +ssse3 -tbm -vaes -vpclmulqdq -waitpkg -wbnoinvd -xop +xsave -xsavec +xsaveopt -xsaves".

(** [${{ github.workspace }}/.numba_cache] *)
Definition cache_dir (r : runner) : string :=
  gh_workspace (ctx r) ++ "/.numba_cache".

(** [numba-<cache_name>-<runner_os>-<python_version>-] *)
Definition key_prefix (name os_ version : string) : string :=
  "numba-" ++ name ++ "-" ++ os_ ++ "-" ++ version ++ "-".

(** The prefix followed by [${{ env.CURRENT_DATE }}]. *)
Definition dated_key (name os_ version day : string) : string :=
  key_prefix name os_ version ++ day.

Definition set_cache_env : step :=
  named "Set numba cache env"
    (fun r => Run [AppendEnv "NUMBA_CACHE_DIR" (cache_dir r)]).

Definition set_cpu_env : step :=
  named "Set numba CPU env"
    (fun _ => Run [AppendEnv "NUMBA_CPU_NAME" "generic"]).

Definition set_cpu_features_env : step :=
  named "Set numba CPU features env"
    (fun _ => Run [AppendEnv "NUMBA_CPU_FEATURES" cpu_features]).

Definition set_caching_env : step :=
  named "Set CACHING_CICD_RUNNING env"
    (fun _ => Run [AppendEnv "CACHING_CICD_RUNNING" "1"]).

Definition get_current_date : step :=
  named "Get Current Date"
    (fun r => Run [AppendEnv "CURRENT_DATE" (date_dmy (clock (ctx r)))]).

Definition git_usr_bin : string := "C:\Program Files\Git\usr\bin".

Definition use_gnu_tar (i : inputs) : step :=
  guarded "Use GNU tar instead BSD tar if Windows"
    (when (fun _ => gh_eq (runner_os_input i) "Windows"))
    (fun _ => Run [AppendPath git_usr_bin]).

Definition restore (i : inputs) : step :=
  guarded "Restore cache"
    (when (fun _ => gh_eq (restore_cache_input i) "true"))
    (fun r =>
       CacheRestore (cache_dir r)
         (dated_key (cache_name i) (runner_os_input i) (python_version i)
            (env_get "CURRENT_DATE" r))
         [key_prefix (cache_name i) (runner_os_input i) (python_version i)]).

Definition steps (i : inputs) : list step :=
  [ set_cache_env; set_cpu_env; set_cpu_features_env; set_caching_env;
    get_current_date; use_gnu_tar i; restore i ].

Definition run (i : inputs) (r : runner) : runner := run_steps (steps i) r.

(** The bindings the action appends to GITHUB_ENV on runner [r]. *)
Definition exported (r : runner) : list (string * string) :=
  [ ("NUMBA_CACHE_DIR", cache_dir r);
    ("NUMBA_CPU_NAME", "generic");
    ("NUMBA_CPU_FEATURES", cpu_features);
    ("CACHING_CICD_RUNNING", "1");
    ("CURRENT_DATE", date_dmy (clock (ctx r))) ].

End NumbaCache.

(** ** .github/actions/cpu_all_extras/action.yml *)

(** A line feed: a folded scalar ([command: >]) ends with one. *)
Definition nl : string := String (ascii_of_nat 10) EmptyString.

(** A double quote, for command lines that hold one. *)
Definition dq : string := String (ascii_of_nat 34) EmptyString.

Module CpuAllExtras.

Definition name : string := "Pip install all_extras with CPU versions".

Record inputs := {
  python_version : option string;      (* default: "3.12" *)
  additional_extras : option string    (* default: the empty string *)
}.

Definition python_version_input (i : inputs) : string :=
  match python_version i with Some v => v | None => "3.12" end.

Definition additional_extras_input (i : inputs) : string :=
  match additional_extras i with Some v => v | None => "" end.

Definition tensorflow_command : string :=
  "python -m pip install tensorflow-cpu".

Definition torch_command : string :=
  "python -m pip install torch --index-url https://download.pytorch.org/whl/cpu".

(** python -m pip install .[all_extras<comma if any><additional_extras>] *)
Definition install_command (i : inputs) : string :=
  "python -m pip install .[all_extras"
  ++ and_or (gh_ne (additional_extras_input i) "") "," ""
  ++ additional_extras_input i ++ "]" ++ nl.

Definition install_tensorflow (i : inputs) : step :=
  guarded "Install CPU TensorFlow"
    (when (fun r => gh_eq (os_name (runner_os (ctx r))) "Linux"
                    && gh_ne (python_version_input i) "3.13"))
    (fun _ => Retry 30 3 tensorflow_command).

Definition install_torch : step :=
  guarded "Install CPU PyTorch"
    (when (fun r => gh_eq (os_name (runner_os (ctx r))) "Linux"))
    (fun _ => Retry 30 3 torch_command).

Definition install_dependencies (i : inputs) : step :=
  named "Install dependencies" (fun _ => Retry 30 3 (install_command i)).

Definition steps (i : inputs) : list step :=
  [ install_tensorflow i; install_torch; install_dependencies i ].

Definition run (i : inputs) (r : runner) : runner := run_steps (steps i) r.

End CpuAllExtras.

(** ** Jobs and workflows *)

(** A step of a job: a step proper, or a call of a composite action of the
    repository, whose inputs are read off the context when the call starts. *)
Inductive job_step :=
| Step (s : step)
| Call (name : string) (cond : runner -> bool) (action : string)
       (steps : context -> list step).

Definition run_job_step (js : job_step) (r : runner) : runner :=
  match js with
  | Step s => run_step s r
  | Call _ cond _ steps => if cond r then run_steps (steps (ctx r)) r else r
  end.

Definition run_job_steps (l : list job_step) (r : runner) : runner :=
  fold_left (fun r js => run_job_step js r) l r.

(** The steps of a job step, a call unfolded. *)
Definition expand (c : context) (js : job_step) : list step :=
  match js with
  | Step s => [s]
  | Call _ _ _ steps => steps c
  end.

(** [strategy:] the combinations (os, python-version) of the matrix. *)
Record strategy := {
  fail_fast : bool;
  matrix : context -> list (string * string)
}.

Definition cross (oses pythons : list string) : list (string * string) :=
  flat_map (fun o => map (fun p => (o, p)) pythons) oses.

Record job := {
  j_id : string;
  j_needs : list string;
  j_if : context -> bool;
  j_runs_on : context -> string;
  j_strategy : option strategy;
  j_steps : list job_step
}.

Record concurrency := {
  group : context -> string;
  cancel_in_progress : bool
}.

Record workflow := {
  w_name : string;
  w_on : list string;
  w_concurrency : option concurrency;
  w_jobs : list job
}.

Definition on_ubuntu (id : string) (steps : list job_step) : job :=
  {| j_id := id; j_needs := []; j_if := fun _ => true;
     j_runs_on := fun _ => "ubuntu-24.04"; j_strategy := None;
     j_steps := steps |}.

Definition numba_cache_action : string := "./.github/actions/numba_cache".
Definition cpu_all_extras_action : string := "./.github/actions/cpu_all_extras".

(** Steps that many jobs share, word for word. *)
Definition checkout : job_step :=
  Step (named "Checkout" (fun _ => Uses "actions/checkout@v4" [])).

Definition checkout_utilities (n : string) : job_step :=
  Step (named n (fun _ =>
    Uses "actions/checkout@v4" [("sparse-checkout", ".github/utilities")])).

Definition setup_python_312 : job_step :=
  Step (named "Setup Python 3.12" (fun _ =>
    Uses "actions/setup-python@v5" [("python-version", "3.12")])).

Definition setup_python_matrix : job_step :=
  Step (named "Setup Python" (fun r =>
    Uses "actions/setup-python@v5"
      [("python-version", matrix_python_version (ctx r))])).

Definition clear_disk_space : job_step :=
  Step (named "Clear disik space" (fun _ =>
    Uses "jlumbroso/free-disk-space@v1.3.1"
      [("dotnet", "false"); ("large-packages", "false");
       ("swap-storage", "false")])).

Definition set_swap_space : job_step :=
  Step (guarded "Set swap space"
    (when (fun r => gh_eq (os_name (runner_os (ctx r))) "Linux"))
    (fun _ => Uses "pierotofy/set-swap-space@v1.0" [("swap-size-gb", "8")])).

Definition show_dependencies : job_step :=
  Step (named "Show dependencies" (fun _ => Run [Shell "python -m pip list"])).

Definition install_pygithub : job_step :=
  Step (named "Install PyGithub" (fun _ => Run [Shell "pip install -Uq PyGithub"])).

Definition app_token_args (r : runner) : list (string * string) :=
  [("app-id", vars (ctx r) "PR_APP_ID");
   ("private-key", secrets (ctx r) "PR_APP_KEY")].

Definition create_app_token : job_step :=
  Step (named "Create app token" (fun r =>
    Uses "actions/create-github-app-token@v2" (app_token_args r))).

Definition retry_install (n cmd : string) : job_step :=
  Step (named n (fun _ => Retry 30 3 cmd)).

Definition run_tests (cmd : string) : job_step :=
  Step (named "Run tests" (fun _ => Run [Shell cmd])).

Definition disable_numba_jit : job_step :=
  Step (named "Disable Numba JIT" (fun _ => Run [AppendEnv "NUMBA_DISABLE_JIT" "1"])).

Definition upload_codecov : job_step :=
  Step (named "Upload coverage to Codecov" (fun _ =>
    Uses "codecov/codecov-action@v5" [])).

Definition matrix_oses : list string := ["ubuntu-24.04"; "macOS-14"; "windows-2022"].
Definition matrix_pythons : list string := ["3.10"; "3.11"; "3.12"; "3.13"].

Definition pytest_logical : string := "python -m pytest -n logical".
Definition pytest_doctests : string :=
  "python -m pytest -n logical --doctest-only --doctest-continue-on-failure".
Definition pytest_multithreading : string :=
  "python -m pytest aeon/testing/tests/ --enablethreading true -k "
  ++ dq ++ "check_estimator_multithreading" ++ dq.
Definition pytest_codecov : string :=
  "python -m pytest -n logical --cov=aeon --cov-report=xml --timeout 1800".

(** ** .github/workflows/periodic_tests.yml *)

Module PeriodicTests.

Definition pre_commit_action (n args : string) : job_step :=
  Step (named n (fun _ => Uses "pre-commit/action@v3.0.1" [("extra_args", args)])).

Definition check_manifest : job :=
  on_ubuntu "check-manifest"
    [ checkout; setup_python_312;
      pre_commit_action "Run check-manifest" "check-manifest --hook-stage manual" ].

Definition pre_commit : job :=
  on_ubuntu "pre-commit"
    [ checkout; setup_python_312;
      pre_commit_action "Run pre-commit" "--all-files" ].

(** The numba_cache action, called to set the variables only. *)
Definition numba_env_only (name : string) (version : context -> string) : job_step :=
  Call "Use numba cache to set env variables but not restore cache"
    success numba_cache_action
    (fun c => NumbaCache.steps
       {| NumbaCache.cache_name := name;
          NumbaCache.runner_os_input := os_name (runner_os c);
          NumbaCache.python_version := version c;
          NumbaCache.restore_cache := Some "false" |}).

(** [Save new cache]: the key is written out in the workflow. *)
Definition save_new_cache (key : runner -> string) : job_step :=
  Step (named "Save new cache" (fun r =>
    CacheSave (gh_workspace (ctx r) ++ "/.numba_cache") (key r))).

Definition run_notebook_examples : job :=
  {| j_id := "run-notebook-examples"; j_needs := []; j_if := fun _ => true;
     j_runs_on := fun _ => "macos-14"; j_strategy := None;
     j_steps :=
       [ checkout;
         Step (named "Install latest version of bash" (fun _ =>
           Run [Shell "brew install bash"; Shell "/opt/homebrew/bin/bash --version"]));
         setup_python_312;
         numba_env_only "run-notebook-examples" (fun _ => "3.12");
         retry_install "Install dependencies"
           "python -m pip install .[all_extras,binder,dev]";
         show_dependencies;
         Step (named "Run example notebooks" (fun _ =>
           Run [Shell ".github/utilities/run_examples.sh false"]));
         save_new_cache (fun r =>
           "numba-run-notebook-examples-" ++ os_name (runner_os (ctx r))
           ++ "-3.12-" ++ env_get "CURRENT_DATE" r) ] |}.

Definition test_core_imports : job :=
  on_ubuntu "test-core-imports"
    [ checkout; setup_python_312;
      retry_install "Install aeon and dependencies" "python -m pip install .";
      show_dependencies;
      Step (named "Run import test" (fun _ =>
        Run [Shell "python aeon/testing/tests/test_core_imports.py"])) ].

Definition test_no_soft_deps : job :=
  on_ubuntu "test-no-soft-deps"
    [ checkout; setup_python_312;
      numba_env_only "test-no-soft-deps" (fun _ => "3.12");
      retry_install "Install aeon and dependencies" "python -m pip install .[dev]";
      show_dependencies;
      run_tests pytest_logical;
      save_new_cache (fun r =>
        "numba-test-no-soft-deps-" ++ os_name (runner_os (ctx r))
        ++ "-3.12-" ++ env_get "CURRENT_DATE" r) ].

Definition pytest : job :=
  {| j_id := "pytest"; j_needs := []; j_if := fun _ => true;
     j_runs_on := matrix_os;
     j_strategy := Some {| fail_fast := false;
                           matrix := fun _ => cross matrix_oses matrix_pythons |};
     j_steps :=
       [ checkout; setup_python_matrix; clear_disk_space; set_swap_space;
         numba_env_only "pytest" matrix_python_version;
         retry_install "Install aeon and dependencies"
           "python -m pip install .[all_extras,dev]";
         show_dependencies;
         run_tests pytest_logical;
         save_new_cache (fun r =>
           "numba-pytest-" ++ os_name (runner_os (ctx r)) ++ "-"
           ++ matrix_python_version (ctx r) ++ "-" ++ env_get "CURRENT_DATE" r) ] |}.

Definition doctests : job :=
  on_ubuntu "doctests"
    [ checkout; setup_python_312;
      numba_env_only "doctests" (fun _ => "3.12");
      retry_install "Install aeon and dependencies"
        "python -m pip install .[all_extras,dev]";
      show_dependencies;
      run_tests pytest_doctests ].

Definition multithreaded_estimators : job :=
  on_ubuntu "multithreaded-estimators"
    [ checkout; setup_python_312;
      numba_env_only "multithreaded-estimators" (fun _ => "3.12");
      retry_install "Install aeon and dependencies"
        "python -m pip install .[all_extras,dev]";
      show_dependencies;
      run_tests pytest_multithreading ].

Definition codecov : job :=
  on_ubuntu "codecov"
    [ checkout; setup_python_312; disable_numba_jit;
      retry_install "Install aeon and dependencies"
        "python -m pip install .[all_extras,unstable_extras,dev]";
      show_dependencies;
      run_tests pytest_codecov;
      upload_codecov ].

(** The jobs that save a numba cache, with the cache name and the python
    version they pass to the numba_cache action. *)
Definition saving_jobs : list (job * string * (context -> string)) :=
  [ (run_notebook_examples, "run-notebook-examples", fun _ => "3.12");
    (test_no_soft_deps, "test-no-soft-deps", fun _ => "3.12");
    (pytest, "pytest", matrix_python_version) ].

Definition workflow : workflow :=
  {| w_name := "Periodic tests";
     w_on := ["schedule"; "workflow_dispatch"];
     w_concurrency := Some {| group := gh_workflow; cancel_in_progress := true |};
     w_jobs := [ check_manifest; pre_commit; run_notebook_examples;
                 test_core_imports; test_no_soft_deps; pytest; doctests;
                 multithreaded_estimators; codecov ] |}.

End PeriodicTests.

(** ** The workflow [Update contributors] *)

Module UpdateContributors.

Definition create_pull_request (message branch title text labels : string)
    (r : runner) : body :=
  Uses "peter-evans/create-pull-request@v7"
    [("token", step_output (ctx r) "app-token" "token");
     ("commit-message", message); ("branch", branch); ("title", title);
     ("body", text); ("labels", labels)].

Definition generate_markdown_and_commit : job :=
  on_ubuntu "generate-markdown-and-commit"
    [ Step (unnamed (fun _ => Uses "actions/checkout@v4" []));
      Step (unnamed (fun _ => Uses "actions/setup-node@v4" [("node-version", "18")]));
      Step (named "Setup all-contributors-cli" (fun _ =>
        Run [Shell "npm install -g all-contributors-cli"]));
      Step (named "Generate CONTRIBUTORS.md" (fun _ =>
        Run [Shell "npx all-contributors generate"]));
      Step (unnamed (fun r =>
        Uses "actions/create-github-app-token@v2" (app_token_args r)));
      Step (unnamed (create_pull_request
        "Automated `CONTRIBUTORS.md` update"
        "update_contributors"
        "[MNT] Automated `CONTRIBUTORS.md` update"
        "Automated update to CONTRIBUTORS.md caused by an update to the `.all-contributorsrc` file."
        "maintenance, no changelog")) ].

Definition workflow : workflow :=
  {| w_name := "Update contributors";
     w_on := ["push"];
     w_concurrency := None;
     w_jobs := [ generate_markdown_and_commit ] |}.

End UpdateContributors.

(** ** The workflow [PR pytest] *)

Module PrPytest.

(** github.event_name == 'pull_request' &&
    !contains(github.event.pull_request.labels.*.name, 'full pytest actions') *)
Definition pr_testing (c : context) : bool :=
  gh_eq (gh_event_name c) "pull_request"
  && negb (contains (gh_pr_labels c) "full pytest actions").

(** github.event_name != 'pull_request' ||
    !contains(github.event.pull_request.labels.*.name, 'no numba cache') *)
Definition wants_numba_cache (r : runner) : bool :=
  gh_ne (gh_event_name (ctx r)) "pull_request"
  || negb (contains (gh_pr_labels (ctx r)) "no numba cache").

(** The numba_cache action, called without [restore_cache]. *)
Definition restore_numba_cache (name : string) (version : context -> string)
  : job_step :=
  Call "Restore numba cache" (when wants_numba_cache) numba_cache_action
    (fun c => NumbaCache.steps
       {| NumbaCache.cache_name := name;
          NumbaCache.runner_os_input := os_name (runner_os c);
          NumbaCache.python_version := version c;
          NumbaCache.restore_cache := None |}).

Definition install_with (version : context -> option string) (extras : string)
  : job_step :=
  Call "Install aeon and dependencies" success cpu_all_extras_action
    (fun c => CpuAllExtras.steps
       {| CpuAllExtras.python_version := version c;
          CpuAllExtras.additional_extras := Some extras |}).

Definition test_no_soft_deps : job :=
  on_ubuntu "test-no-soft-deps"
    [ checkout; setup_python_312;
      restore_numba_cache "test-no-soft-deps" (fun _ => "3.12");
      retry_install "Install aeon and dependencies" "python -m pip install .[dev]";
      show_dependencies;
      run_tests pytest_logical ].

(** The matrix leaves python 3.11 out when [pr-testing] is true. *)
Definition pytest_matrix (c : context) : list (string * string) :=
  filter (fun op => negb (pr_testing c && String.eqb (snd op) "3.11"))
    (cross matrix_oses matrix_pythons).

Definition pytest : job :=
  {| j_id := "pytest"; j_needs := []; j_if := fun _ => true;
     j_runs_on := matrix_os;
     j_strategy := Some {| fail_fast := false; matrix := pytest_matrix |};
     j_steps :=
       [ checkout; setup_python_matrix; clear_disk_space; set_swap_space;
         restore_numba_cache "pytest" matrix_python_version;
         install_with (fun c => Some (matrix_python_version c)) "dev";
         show_dependencies;
         Step (named "Run tests" (fun r =>
           Run [Shell ("python -m pytest -n logical --prtesting "
                       ++ show_bool (pr_testing (ctx r)))])) ] |}.

Definition doctests : job :=
  on_ubuntu "doctests"
    [ checkout; setup_python_312;
      restore_numba_cache "doctests" (fun _ => "3.12");
      install_with (fun _ => None) "dev";
      show_dependencies;
      run_tests pytest_doctests ].

Definition multithreaded_estimators : job :=
  on_ubuntu "multithreaded-estimators"
    [ checkout; setup_python_312;
      restore_numba_cache "multithreaded-estimators" (fun _ => "3.12");
      install_with (fun _ => None) "dev";
      show_dependencies;
      run_tests pytest_multithreading ].

Definition codecov : job :=
  {| j_id := "codecov"; j_needs := [];
     j_if := fun c => gh_ne (gh_event_name c) "pull_request"
                      || contains (gh_pr_labels c) "codecov actions";
     j_runs_on := fun _ => "ubuntu-24.04"; j_strategy := None;
     j_steps :=
       [ checkout; setup_python_312; disable_numba_jit;
         install_with (fun _ => None) "unstable_extras,dev";
         show_dependencies;
         run_tests pytest_codecov;
         upload_codecov ] |}.

Definition workflow : workflow :=
  {| w_name := "PR pytest";
     w_on := ["push"; "pull_request"];
     w_concurrency :=
       Some {| group := fun c => gh_workflow c ++ "-"
                                 ++ or_else (gh_head_ref c) (gh_ref c);
               cancel_in_progress := true |};
     w_jobs := [ test_no_soft_deps; pytest; doctests;
                 multithreaded_estimators; codecov ] |}.

End PrPytest.

(** A step that runs a script of .github/utilities with the app token. *)
Definition utility_script (n script : string) : job_step :=
  Step (named n (fun _ => Run [Shell ("python .github/utilities/" ++ script)])).

(** ** .github/workflows/issue_comment_posted.yml *)

Module IssueCommentPosted.

Definition self_assign : job :=
  on_ubuntu "self-assign"
    [ checkout_utilities "Checkout"; setup_python_312; install_pygithub;
      create_app_token;
      utility_script "Assign issue" "issue_assign.py" ].

Definition workflow : workflow :=
  {| w_name := "Issue comment posted";
     w_on := ["issue_comment"];
     w_concurrency := None;
     w_jobs := [ self_assign ] |}.

End IssueCommentPosted.

(** ** .github/workflows/pr_labelled.yml *)

Module PullRequestLabelled.

Definition ai_pull_request : job :=
  {| j_id := "ai-pull-request"; j_needs := [];
     j_if := fun c => gh_eq (gh_label_name c) "AI pull request";
     j_runs_on := fun _ => "ubuntu-24.04"; j_strategy := None;
     j_steps :=
       [ create_app_token; checkout_utilities "Checkout main";
         setup_python_312; install_pygithub;
         utility_script "Process AI label" "ai_spam.py" ] |}.

Definition workflow : workflow :=
  {| w_name := "Pull request labelled";
     w_on := ["pull_request"];
     w_concurrency :=
       Some {| group := fun c => gh_workflow c ++ "-" ++ gh_pr_number c;
               cancel_in_progress := true |};
     w_jobs := [ ai_pull_request ] |}.

End PullRequestLabelled.

(** ** .github/workflows/issue_assigned.yml *)

Module IssueAssigned.

Definition remove_good_first_issue : job :=
  on_ubuntu "remove-good-first-issue"
    [ create_app_token; checkout_utilities "Checkout main";
      setup_python_312; install_pygithub;
      utility_script "Process comment edit" "remove_good_first_issue.py" ].

Definition workflow : workflow :=
  {| w_name := "Issue assigned";
     w_on := ["issues"];
     w_concurrency :=
       Some {| group := fun c => gh_workflow c ++ "-" ++ gh_issue_id c;
               cancel_in_progress := true |};
     w_jobs := [ remove_good_first_issue ] |}.

End IssueAssigned.

(** ** The workflow [Release] *)

Module Release.

Definition download_dist : job_step :=
  Step (unnamed (fun _ =>
    Uses "actions/download-artifact@v4" [("name", "dist"); ("path", "dist")])).

Definition is_windows (r : runner) : bool :=
  gh_eq (os_name (runner_os (ctx r))) "Windows".

Definition check_manifest : job :=
  on_ubuntu "check-manifest"
    [ Step (unnamed (fun _ => Uses "actions/checkout@v4" []));
      setup_python_312;
      Step (unnamed (fun _ =>
        Uses "pre-commit/action@v3.0.1"
          [("extra_args", "check-manifest --hook-stage manual")])) ].

Definition build_project : job :=
  {| j_id := "build-project"; j_needs := ["check-manifest"];
     j_if := fun _ => true; j_runs_on := fun _ => "ubuntu-24.04";
     j_strategy := None;
     j_steps :=
       [ Step (unnamed (fun _ => Uses "actions/checkout@v4" []));
         setup_python_312;
         Step (named "Build project" (fun _ =>
           Run [Shell "python -m pip install build"; Shell "python -m build"]));
         Step (named "Store build files" (fun _ =>
           Uses "actions/upload-artifact@v4"
             [("name", "dist"); ("path", "dist/*"); ("retention-days", "5")])) ] |}.

(** echo "WHEELNAME=$(ls ./dist/aeon-*-none-any.whl)" >> GITHUB_ENV *)
Definition wheel_filename (n : string) (c : runner -> bool) : job_step :=
  Step (guarded n (when c) (fun r =>
    Run [AppendEnv "WHEELNAME" (wheel_listing (ctx r))])).

Definition windows_install_command : string :=
  "python -m pip install " ++ dq ++ "${env:WHEELNAME}[all_extras,dev]" ++ dq.

Definition unix_install_command (r : runner) : string :=
  "python -m pip install " ++ dq ++ env_get "WHEELNAME" r
  ++ "[all_extras,dev]" ++ dq.

Definition test_wheels : job :=
  {| j_id := "test-wheels"; j_needs := ["build-project"];
     j_if := fun _ => true; j_runs_on := matrix_os;
     j_strategy := Some {| fail_fast := false;
                           matrix := fun _ => cross matrix_oses matrix_pythons |};
     j_steps :=
       [ checkout; setup_python_matrix; clear_disk_space; set_swap_space;
         download_dist;
         wheel_filename "Windows wheel filename" is_windows;
         wheel_filename "Unix wheel filename" (fun r => negb (is_windows r));
         Call "Use numba cache to set env variables but not restore cache"
           success numba_cache_action
           (fun c => NumbaCache.steps
              {| NumbaCache.cache_name := "release";
                 NumbaCache.runner_os_input := os_name (runner_os c);
                 NumbaCache.python_version := matrix_python_version c;
                 NumbaCache.restore_cache := Some "false" |});
         Step (guarded "Windows install" (when is_windows)
                 (fun _ => Retry 30 3 windows_install_command));
         Step (guarded "Unix install" (when (fun r => negb (is_windows r)))
                 (fun r => Retry 30 3 (unix_install_command r)));
         show_dependencies;
         Step (named "Tests" (fun _ => Run [Shell pytest_logical])) ] |}.

Definition upload_wheels : job :=
  {| j_id := "upload-wheels"; j_needs := ["test-wheels"];
     j_if := fun _ => true; j_runs_on := fun _ => "ubuntu-24.04";
     j_strategy := None;
     j_steps :=
       [ download_dist;
         Step (named "Publish package to PyPI" (fun _ =>
           Uses "pypa/gh-action-pypi-publish@release/v1" [])) ] |}.

Definition workflow : workflow :=
  {| w_name := "Release";
     w_on := ["release"; "workflow_dispatch"];
     w_concurrency := None;
     w_jobs := [ check_manifest; build_project; test_wheels; upload_wheels ] |}.

End Release.

(** ** The workflow [PR opened] *)

Module PrOpened.

Definition labeler : job :=
  on_ubuntu "labeler"
    [ checkout_utilities "Checkout"; setup_python_312; install_pygithub;
      create_app_token;
      utility_script "Label pull request" "pr_labeler.py";
      utility_script "Write pull request comment" "pr_open_commenter.py" ].

Definition workflow : workflow :=
  {| w_name := "PR opened";
     w_on := ["pull_request_target"];
     w_concurrency := None;
     w_jobs := [ labeler ] |}.

End PrOpened.

(** ** The workflow [Weekly GitHub maintenance] *)

Module WeeklyMaintenance.

Definition checkout_main : job_step :=
  Step (named "Checkout main" (fun _ => Uses "actions/checkout@v4" [])).

Definition autoupdate : step :=
  unnamed (fun _ => Uses "browniebroke/pre-commit-autoupdate-action@v1.0.0" []).

(** [if: always()] *)
Definition always_create_app_token : step :=
  guarded "Create app token" always (fun r =>
    Uses "actions/create-github-app-token@v2" (app_token_args r)).

(** [if: always()] *)
Definition always_create_pull_request : step :=
  {| s_name := None; s_if := always;
     s_body := UpdateContributors.create_pull_request
       "Automated `pre-commit` hook update"
       "pre-commit-hooks-update"
       "[MNT] Automated `pre-commit` hook update"
       "Automated weekly update to `.pre-commit-config.yaml` hook versions."
       "maintenance, full pre-commit, no changelog" |}.

Definition pre_commit_auto_update : job :=
  on_ubuntu "pre-commit-auto-update"
    [ checkout_main; setup_python_312; Step autoupdate;
      Step always_create_app_token; Step always_create_pull_request ].

Definition teams_table_auto_update : job :=
  on_ubuntu "teams-table-auto-update"
    [ checkout_utilities "Checkout main"; setup_python_312;
      Step (named "Install requests" (fun _ => Run [Shell "pip install -Uq requests"]));
      create_app_token;
      utility_script "Process comment edit" "generate_developer_tables.py";
      Step (unnamed (UpdateContributors.create_pull_request
        "Automated teams tables update"
        "webpage-teams-update"
        "[DOC] Automated website teams tables update"
        "Automated weekly update to the website teams tables."
        "documentation, no changelog")) ].

Definition github_security_scorecard : job :=
  on_ubuntu "github-security-scorecard"
    [ Step (named "Checkout code" (fun _ =>
        Uses "actions/checkout@v4" [("persist-credentials", "false")]));
      Step (named "Run analysis" (fun _ =>
        Uses "ossf/scorecard-action@v2.4.2"
          [("results_file", "results.sarif"); ("results_format", "sarif");
           ("publish_results", "true")]));
      Step (named "Upload artifact" (fun _ =>
        Uses "actions/upload-artifact@v4"
          [("name", "SARIF file"); ("path", "results.sarif");
           ("retention-days", "5")]));
      Step (named "Upload to code-scanning" (fun _ =>
        Uses "github/codeql-action/upload-sarif@v3"
          [("sarif_file", "results.sarif")])) ].

Definition stale_branches : job :=
  on_ubuntu "stale_branches"
    [ create_app_token;
      Step (named "Stale Branches" (fun r =>
        Uses "crs-k/stale-branches@v8.2.1"
          [("repo-token", step_output (ctx r) "app-token" "token");
           ("days-before-stale", "180"); ("days-before-delete", "210");
           ("comment-updates", "true"); ("tag-committer", "true");
           ("stale-branch-label", "stale branch");
           ("compare-branches", "info"); ("pr-check", "true")])) ].

Definition workflow : workflow :=
  {| w_name := "Weekly GitHub maintenance";
     w_on := ["schedule"; "workflow_dispatch"];
     w_concurrency := None;
     w_jobs := [ pre_commit_auto_update; teams_table_auto_update;
                 github_security_scorecard; stale_branches ] |}.

End WeeklyMaintenance.

(** ** The workflow [PR typecheck] *)

Module PrTypecheck.

Definition typecheck : job :=
  {| j_id := "typecheck"; j_needs := [];
     j_if := fun c => gh_eq (gh_event_name c) "pull_request"
                      && contains (gh_pr_labels c) "run typecheck test";
     j_runs_on := fun _ => "ubuntu-24.04"; j_strategy := None;
     j_steps :=
       [ checkout; setup_python_312;
         retry_install "Install aeon, dependencies and mypy"
           "python -m pip install .[all_extras,unstable_extras,dev] mypy";
         show_dependencies;
         Step (named "Run mypy typecheck" (fun _ => Run [Shell "mypy aeon/"])) ] |}.

Definition workflow : workflow :=
  {| w_name := "PR typecheck";
     w_on := ["push"; "pull_request"];
     w_concurrency :=
       Some {| group := fun c => gh_workflow c ++ "-"
                                 ++ or_else (gh_head_ref c) (gh_ref c);
               cancel_in_progress := true |};
     w_jobs := [ typecheck ] |}.

End PrTypecheck.

(** ** The workflow [Issue comment edited] *)

Module IssueCommentEdited.

(** steps.label_out.outputs.empty_commit == 'true' *)
Definition empty_commit (r : runner) : bool :=
  gh_eq (step_output (ctx r) "label_out" "empty_commit") "true".

Definition pr_welcome_edited : job :=
  {| j_id := "pr-welcome-edited"; j_needs := [];
     j_if := gh_issue_is_pr;
     j_runs_on := fun _ => "ubuntu-24.04"; j_strategy := None;
     j_steps :=
       [ create_app_token; checkout_utilities "Checkout main";
         setup_python_312; install_pygithub;
         utility_script "Process comment edit" "pr_welcome_edited.py";
         Step (guarded "Checkout head" (when empty_commit) (fun r =>
           Uses "actions/checkout@v4"
             [("repository", step_output (ctx r) "label_out" "repo");
              ("ref", step_output (ctx r) "label_out" "branch");
              ("token", step_output (ctx r) "app-token" "token")]));
         Step (guarded "Push empty commit" (when empty_commit) (fun _ =>
           Uses "stefanzweifel/git-auto-commit-action@v6"
             [("commit_message", "Empty commit for CI");
              ("commit_user_name", "aeon-actions-bot[bot]");
              ("commit_options", "--allow-empty");
              ("skip_dirty_check", "true")])) ] |}.

Definition workflow : workflow :=
  {| w_name := "Issue comment edited";
     w_on := ["issue_comment"];
     w_concurrency :=
       Some {| group := fun c => gh_workflow c ++ "-" ++ gh_comment_id c;
               cancel_in_progress := true |};
     w_jobs := [ pr_welcome_edited ] |}.

End IssueCommentEdited.

(** ** The whole configuration *)

Definition workflows : list workflow :=
  [ PeriodicTests.workflow; UpdateContributors.workflow; PrPytest.workflow;
    IssueCommentPosted.workflow; PullRequestLabelled.workflow;
    IssueAssigned.workflow; Release.workflow; PrOpened.workflow;
    WeeklyMaintenance.workflow; PrTypecheck.workflow;
    IssueCommentEdited.workflow ].

Definition jobs : list job := flat_map w_jobs workflows.

(** Every step of every job, the calls of composite actions unfolded on
    context [c]. *)
Definition all_steps (c : context) : list step :=
  flat_map (fun j => flat_map (expand c) (j_steps j)) jobs.

Definition run_job (j : job) (r : runner) : runner :=
  run_job_steps (j_steps j) r.

(** ** Runs in which nothing fails *)

(** Every command and every third-party action succeeds. *)
Definition all_ok (c : context) : Prop :=
  (forall cmd n, cmd_ok c cmd n = true) /\ (forall a, action_ok c a = true).

(** Whether a command wrapped in nick-fields/retry succeeds on one of its
    [m] attempts. *)
Definition succeeds_within (c : context) (cmd : string) (m : nat) : bool :=
  existsb (cmd_ok c cmd) (seq 1 m).

(** Bodies that leave GITHUB_ENV, the workspace and the cache service alone:
    scripts without a line for GITHUB_ENV, retried commands, third-party
    actions. *)
Definition plain (b : body) : bool :=
  match b with
  | Run s =>
      forallb (fun e => match e with AppendEnv _ _ => false | _ => true end) s
  | Retry _ (S _) _ => true
  | Uses _ _ => true
  | _ => false
  end.

(** What a plain step keeps when nothing fails. *)
Definition quiet (js : job_step) : Prop :=
  forall r, failed r = false -> all_ok (ctx r) ->
    let r' := run_job_step js r in
    ctx r' = ctx r /\ env r' = env r /\ files r' = files r
    /\ caches r' = caches r /\ failed r' = false.

(** ** Reading command lines *)

(** The command lines a body hands to a shell. *)
Definition commands_of (b : body) : list string :=
  match b with
  | Run s =>
      flat_map (fun e => match e with Shell c => [c] | _ => [] end) s
  | Retry _ _ c => [c]
  | _ => []
  end.

(** The extras of the requirements on a command line: in [name[a,b]] the
    names between the brackets, split at the commas. *)
Fixpoint scan_extras (s : string) (inside : bool) (cur : string) : list string :=
  match s with
  | EmptyString => []
  | String c s' =>
      if inside then
        if Ascii.eqb c "]" then cur :: scan_extras s' false ""
        else if Ascii.eqb c "," then cur :: scan_extras s' true ""
        else scan_extras s' true (cur ++ String c EmptyString)
      else if Ascii.eqb c "[" then scan_extras s' true ""
      else scan_extras s' false ""
  end.

Definition extras_of (cmd : string) : list string := scan_extras cmd false "".

Fixpoint no_open_bracket (s : string) : bool :=
  match s with
  | EmptyString => true
  | String c s' => negb (Ascii.eqb c "[") && no_open_bracket s'
  end.

(** The extras groups the specification lists. *)
Definition extras_groups : list string :=
  ["all_extras"; "dev"; "unstable_extras"; "binder"].









(** The steps of the configuration: those of the jobs on some context, and
    those of the two composite actions on any inputs. *)
Definition configured (s : step) : Prop :=
  (exists c, In s (all_steps c))
  \/ (exists i, In s (NumbaCache.steps i))
  \/ (exists i, In s (CpuAllExtras.steps i)).

(** A step that is let run after a step of its job has failed. *)
Definition runs_after_failure (s : step) : Prop :=
  exists r, failed r = true /\ s_if s r = true.

Definition is_retry (b : body) : bool :=
  match b with Retry _ _ _ => true | _ => false end.

(** ** Concurrency groups

    How the workflow service queues runs: a run whose workflow declares a
    group and [cancel-in-progress: true] cancels the runs of its group, in
    progress or pending; without the flag it waits as the pending run of the
    group while one is in progress, replacing an earlier pending one.  When a
    run finishes, pending runs whose group is free start. *)

Module Engine.

Record run := { run_id : nat; run_group : option string }.

Record state := { in_progress : list run; pending : list run }.

Inductive event :=
| Start (id : nat) (w : workflow) (c : context)
| Finish (id : nat).

Definition group_of (w : workflow) (c : context) : option string :=
  match w_concurrency w with
  | Some k => Some (group k c)
  | None => None
  end.

Definition cancels (w : workflow) : bool :=
  match w_concurrency w with
  | Some k => cancel_in_progress k
  | None => false
  end.

Definition in_group (g : string) (r : run) : bool :=
  match run_group r with
  | Some g' => String.eqb g g'
  | None => false
  end.

Definition others (g : string) (l : list run) : list run :=
  filter (fun r => negb (in_group g r)) l.

Definition start (id : nat) (w : workflow) (c : context) (st : state) : state :=
  let r := {| run_id := id; run_group := group_of w c |} in
  match group_of w c with
  | None => {| in_progress := r :: in_progress st; pending := pending st |}
  | Some g =>
      if cancels w then
        {| in_progress := r :: others g (in_progress st);
           pending := others g (pending st) |}
      else if existsb (in_group g) (in_progress st) then
        {| in_progress := in_progress st;
           pending := r :: others g (pending st) |}
      else {| in_progress := r :: in_progress st; pending := pending st |}
  end.

(** A pending run starts when no run of its group is in progress. *)
Definition blocked (running : list run) (r : run) : bool :=
  match run_group r with
  | Some g => existsb (in_group g) running
  | None => false
  end.

Fixpoint promote (waiting running : list run) : state :=
  match waiting with
  | [] => {| in_progress := running; pending := [] |}
  | r :: waiting' =>
      if blocked running r then
        let st := promote waiting' running in
        {| in_progress := in_progress st; pending := r :: pending st |}
      else promote waiting' (r :: running)
  end.

Definition finish (id : nat) (st : state) : state :=
  promote (pending st)
    (filter (fun r => negb (Nat.eqb (run_id r) id)) (in_progress st)).

Definition handle (st : state) (e : event) : state :=
  match e with
  | Start id w c => start id w c st
  | Finish id => finish id st
  end.

Definition idle : state := {| in_progress := []; pending := [] |}.

Definition run_events (evs : list event) : state := fold_left handle evs idle.

(** The groups of the runs in progress. *)
Fixpoint groups (l : list run) : list string :=
  match l with
  | [] => []
  | r :: l' =>
      match run_group r with
      | Some g => g :: groups l'
      | None => groups l'
      end
  end.

(** The workflow of every [Start] is one of the configuration. *)
Definition of_configuration (e : event) : Prop :=
  match e with
  | Start _ w _ => In w workflows
  | Finish _ => True
  end.

End Engine.

(** ** Sample runners *)

Definition sample_context : context :=
  {| gh_workspace := "/home/runner/work/aeon/aeon";
     gh_event_name := "pull_request";
     gh_workflow := "PR pytest";
     gh_head_ref := "fix-docs";
     gh_ref := "refs/pull/7/merge";
     gh_pr_number := "7";
     gh_issue_id := "11";
     gh_comment_id := "13";
     gh_label_name := "documentation";
     gh_issue_is_pr := true;
     gh_pr_labels := ["documentation"];
     runner_os := Linux;
     matrix_os := "ubuntu-24.04";
     matrix_python_version := "3.12";
     secrets := fun _ => "***";
     vars := fun _ => "1";
     step_output := fun _ _ => "";
     clock := {| d_day := 2; d_month := 11; d_year := 2026 |};
     wheel_listing := "./dist/aeon-1.2.0-py3-none-any.whl";
     cmd_ok := fun _ _ => true;
     action_ok := fun _ => true |}.

(** The sample context, the pre-commit autoupdate action failing. *)
Definition autoupdate_fails : context :=
  {| gh_workspace := gh_workspace sample_context;
     gh_event_name := "schedule";
     gh_workflow := "Weekly GitHub maintenance";
     gh_head_ref := "";
     gh_ref := "refs/heads/main";
     gh_pr_number := "";
     gh_issue_id := "";
     gh_comment_id := "";
     gh_label_name := "";
     gh_issue_is_pr := false;
     gh_pr_labels := [];
     runner_os := Linux;
     matrix_os := "";
     matrix_python_version := "";
     secrets := fun _ => "***";
     vars := fun _ => "1";
     step_output := fun _ _ => "";
     clock := clock sample_context;
     wheel_listing := "";
     cmd_ok := fun _ _ => true;
     action_ok := fun a =>
       negb (String.eqb a "browniebroke/pre-commit-autoupdate-action@v1.0.0") |}.

Definition fresh (c : context) : runner :=
  {| ctx := c; env := []; path := []; files := []; caches := [];
     log := []; failed := false |}.

Definition sample_runner : runner := fresh sample_context.

Definition sample_inputs : NumbaCache.inputs :=
  {| NumbaCache.cache_name := "pytest";
     NumbaCache.runner_os_input := "Linux";
     NumbaCache.python_version := "3.12";
     NumbaCache.restore_cache := Some "true" |}.

(** A cache service that holds yesterday's archive of the pytest job. *)
Definition sample_store : list (string * content) :=
  [ ("numba-doctests-Linux-3.12-02/11/2026", "archive of the doctests job");
    ("numba-pytest-Linux-3.12-01/11/2026", "archive of 1 November") ].

Definition stocked_runner : runner := set_caches sample_store sample_runner.

(** A runner whose tests have filled the numba cache directory. *)
Definition built_runner : runner :=
  set_files
    [ ("/home/runner/work/aeon/aeon/.numba_cache", "archive of 2 November") ]
    sample_runner.

(** ** Uses of actions/cache *)

(** The bodies that restore a cache and those that save one. *)
Definition restores (b : body) : bool :=
  match b with CacheRestore _ _ _ => true | _ => false end.

Definition saves (b : body) : bool :=
  match b with CacheSave _ _ => true | _ => false end.

(** The jobs of PR pytest that call the numba_cache action to restore, with
    the cache name and the python version they pass. *)
Definition restoring_jobs : list (job * string * (context -> string)) :=
  [ (PrPytest.test_no_soft_deps, "test-no-soft-deps", fun _ => "3.12");
    (PrPytest.pytest, "pytest", matrix_python_version);
    (PrPytest.doctests, "doctests", fun _ => "3.12");
    (PrPytest.multithreaded_estimators, "multithreaded-estimators",
     fun _ => "3.12") ].

(** A comma-separated list, as the additional_extras input takes it. *)
Fixpoint join_commas (l : list string) : string :=
  match l with
  | [] => ""
  | [n] => n
  | n :: l' => n ++ "," ++ join_commas l'
  end.

(** A name with no comma and no bracket in it. *)
Fixpoint plain_name (s : string) : bool :=
  match s with
  | EmptyString => true
  | String c s' =>
      negb (Ascii.eqb c ",") && negb (Ascii.eqb c "[")
      && negb (Ascii.eqb c "]") && plain_name s'
  end.

(** The sample context on a Linux runner where every command fails on its
    first [n] attempts and succeeds from then on. *)
Definition flaky_context (n : nat) : context :=
  {| gh_workspace := gh_workspace sample_context;
     gh_event_name := gh_event_name sample_context;
     gh_workflow := gh_workflow sample_context;
     gh_head_ref := gh_head_ref sample_context;
     gh_ref := gh_ref sample_context;
     gh_pr_number := gh_pr_number sample_context;
     gh_issue_id := gh_issue_id sample_context;
     gh_comment_id := gh_comment_id sample_context;
     gh_label_name := gh_label_name sample_context;
     gh_issue_is_pr := gh_issue_is_pr sample_context;
     gh_pr_labels := gh_pr_labels sample_context;
     runner_os := Linux;
     matrix_os := matrix_os sample_context;
     matrix_python_version := matrix_python_version sample_context;
     secrets := secrets sample_context;
     vars := vars sample_context;
     step_output := step_output sample_context;
     clock := clock sample_context;
     wheel_listing := wheel_listing sample_context;
     cmd_ok := fun _ k => Nat.ltb n k;
     action_ok := fun _ => true |}.

(** The sample pull request, carrying the given labels. *)
Definition with_labels (labels : list string) (c : context) : context :=
  {| gh_workspace := gh_workspace c;
     gh_event_name := gh_event_name c;
     gh_workflow := gh_workflow c;
     gh_head_ref := gh_head_ref c;
     gh_ref := gh_ref c;
     gh_pr_number := gh_pr_number c;
     gh_issue_id := gh_issue_id c;
     gh_comment_id := gh_comment_id c;
     gh_label_name := gh_label_name c;
     gh_issue_is_pr := gh_issue_is_pr c;
     gh_pr_labels := labels;
     runner_os := runner_os c;
     matrix_os := matrix_os c;
     matrix_python_version := matrix_python_version c;
     secrets := secrets c;
     vars := vars c;
     step_output := step_output c;
     clock := clock c;
     wheel_listing := wheel_listing c;
     cmd_ok := cmd_ok c;
     action_ok := action_ok c |}.

Definition unlabelled_cache_runner : runner :=
  set_caches sample_store
    (fresh (with_labels ["documentation"; "no numba cache"] sample_context)).

(** A context for a run of the named workflow on the given head ref. *)
Definition on_branch (workflow_name head_ref : string) (c : context) : context :=
  {| gh_workspace := gh_workspace c;
     gh_event_name := gh_event_name c;
     gh_workflow := workflow_name;
     gh_head_ref := head_ref;
     gh_ref := gh_ref c;
     gh_pr_number := gh_pr_number c;
     gh_issue_id := gh_issue_id c;
     gh_comment_id := gh_comment_id c;
     gh_label_name := gh_label_name c;
     gh_issue_is_pr := gh_issue_is_pr c;
     gh_pr_labels := gh_pr_labels c;
     runner_os := runner_os c;
     matrix_os := matrix_os c;
     matrix_python_version := matrix_python_version c;
     secrets := secrets c;
     vars := vars c;
     step_output := step_output c;
     clock := clock c;
     wheel_listing := wheel_listing c;
     cmd_ok := cmd_ok c;
     action_ok := action_ok c |}.

(** * Properties *)

(** ** The definitions on small inputs *)

Example date_dmy_sample :
  date_dmy {| d_day := 2; d_month := 11; d_year := 2026 |} = "02/11/2026".
Proof. reflexivity. Qed.

Example gh_eq_ignores_case :
  gh_eq "windows" "Windows" = true /\ gh_eq "3.12" "3.13" = false.
Proof. split; reflexivity. Qed.

Example and_or_comma :
  and_or (gh_ne "dev" "") "," "" = "," /\ and_or (gh_ne "" "") "," "" = "".
Proof. split; reflexivity. Qed.

Example lookup_last_takes_the_latest :
  lookup_last "A" [("A", "1"); ("B", "2"); ("A", "3")] = Some "3".
Proof. reflexivity. Qed.

Example cache_lookup_order :
  cache_lookup [("k-2", "b"); ("k-1", "a")] "k-1" ["k-"] = Some ("k-1", "a")
  /\ cache_lookup [("k-2", "b"); ("k-1", "a")] "k-3" ["k-"] = Some ("k-2", "b")
  /\ cache_lookup [("k-2", "b"); ("k-1", "a")] "j-3" ["j-"] = None.
Proof. repeat split; reflexivity. Qed.

Example retry_third_attempt :
  map (fun n => failed (run_retry "make" 3 1
         {| ctx := {| gh_workspace := gh_workspace sample_context;
                      gh_event_name := "push"; gh_workflow := "";
                      gh_head_ref := ""; gh_ref := ""; gh_pr_number := "";
                      gh_issue_id := ""; gh_comment_id := "";
                      gh_label_name := ""; gh_issue_is_pr := false;
                      gh_pr_labels := []; runner_os := Linux;
                      matrix_os := ""; matrix_python_version := "";
                      secrets := fun _ => ""; vars := fun _ => "";
                      step_output := fun _ _ => "";
                      clock := clock sample_context; wheel_listing := "";
                      cmd_ok := fun _ k => Nat.leb n k;
                      action_ok := fun _ => true |};
            env := []; path := []; files := []; caches := []; log := [];
            failed := false |})) [1; 3; 4] = [false; false; true].
Proof. reflexivity. Qed.

Example pull_request_matrix :
  length (PrPytest.pytest_matrix sample_context) = 9
  /\ length (cross matrix_oses matrix_pythons) = 12.
Proof. split; reflexivity. Qed.

Example configuration_size :
  length workflows = 11 /\ length jobs = 29
  /\ length (all_steps sample_context) = 232.
Proof. repeat split; reflexivity. Qed.

(** ** Strings and bindings *)

Lemma lookup_last_app (k : string) (l l' : list (string * string)) :
  lookup_last k (l ++ l') =
  match lookup_last k l' with
  | Some v => Some v
  | None => lookup_last k l
  end.
Proof.
  induction l as [|[k' v] l IH]; simpl.
  - destruct (lookup_last k l'); reflexivity.
  - rewrite IH. destruct (lookup_last k l'); reflexivity.
Qed.

Lemma prefix_app (a b : string) : String.prefix a (a ++ b) = true.
Proof.
  induction a as [|c a IH]; simpl.
  - destruct b; reflexivity.
  - destruct (ascii_dec c c) as [_|n]; [exact IH | contradiction].
Qed.

Lemma prefix_refl (a : string) : String.prefix a a = true.
Proof.
  induction a as [|c a IH]; simpl; [reflexivity|].
  destruct (ascii_dec c c) as [_|n]; [exact IH | contradiction].
Qed.

Lemma append_assoc (a b c : string) : (a ++ b) ++ c = a ++ (b ++ c).
Proof. induction a as [|x a IH]; simpl; [reflexivity | now rewrite IH]. Qed.

(** ** The numba_cache action *)

Section NumbaCacheRun.

Import NumbaCache.

Variable i : inputs.
Variable r : runner.
Hypothesis running : failed r = false.

(** What the restore step asks the cache service for. *)
Let key : string :=
  dated_key (cache_name i) (runner_os_input i) (python_version i)
    (date_dmy (clock (ctx r))).
Let fallback : string :=
  key_prefix (cache_name i) (runner_os_input i) (python_version i).

Lemma numba_cache_env_steps :
  run_steps [ set_cache_env; set_cpu_env; set_cpu_features_env;
              set_caching_env; get_current_date ] r =
  set_env (env r ++ exported r) r.
Proof.
  unfold run_steps, exported. destruct r as [c e p f ca l fl].
  simpl in running. subst fl. unfold fold_left, run_step.
  unfold set_cache_env, set_cpu_env, set_cpu_features_env, set_caching_env,
    get_current_date, named, success, set_env, cache_dir.
  simpl. rewrite <- !app_assoc. reflexivity.
Qed.

Lemma numba_cache_date_read :
  env_get "CURRENT_DATE" (set_env (env r ++ exported r) r) =
  date_dmy (clock (ctx r)).
Proof.
  unfold env_get, set_env. simpl env. rewrite lookup_last_app.
  reflexivity.
Qed.

Lemma env_get_set_path (k : string) (p : list string) (r0 : runner) :
  env_get k (set_path p r0) = env_get k r0.
Proof. reflexivity. Qed.

Lemma numba_cache_run_fields :
  let r' := run i r in
  env r' = (env r ++ exported r)%list
  /\ path r' = (path r ++
       if gh_eq (runner_os_input i) "Windows" then [git_usr_bin] else [])%list
  /\ files r' =
       (if gh_eq (restore_cache_input i) "true" then
          match cache_lookup (caches r) key [fallback] with
          | Some e => write_dir (cache_dir r) (snd e) (files r)
          | None => files r
          end
        else files r)
  /\ caches r' = caches r
  /\ log r' =
       (log r ++
        if gh_eq (restore_cache_input i) "true"
        then [Act "actions/cache/restore@v4"] else [])%list
  /\ failed r' = false
  /\ ctx r' = ctx r.
Proof.
  assert (Hsplit : run i r =
    run_steps [use_gnu_tar i; restore i]
      (run_steps [ set_cache_env; set_cpu_env; set_cpu_features_env;
                   set_caching_env; get_current_date ] r)).
  { reflexivity. }
  intros r'. unfold r'. rewrite Hsplit, numba_cache_env_steps.
  pose proof numba_cache_date_read as Hdate.
  remember (exported r) as ex eqn:Eex.
  unfold run_steps, fold_left, run_step, use_gnu_tar, restore, guarded, when,
    success.
  change (s_if {| s_name := ?n; s_if := ?c; s_body := ?b |}) with c.
  cbv beta. simpl s_if. simpl s_body. simpl failed. rewrite running.
  simpl negb. rewrite !andb_true_l.
  destruct (gh_eq (runner_os_input i) "Windows");
    destruct (gh_eq (restore_cache_input i) "true");
    simpl run_body; simpl failed; rewrite ?running; simpl negb;
    rewrite ?andb_true_l; try rewrite app_nil_r.
  all: rewrite ?env_get_set_path.
  all: rewrite ?Hdate; fold key; fold fallback.
  all: simpl caches; try destruct (cache_lookup (caches r) key [fallback]).
  all: repeat split; try reflexivity; simpl; auto using app_nil_r.
Qed.

End NumbaCacheRun.

Lemma find_none_weaken {A} (p q : A -> bool) (l : list A) :
  (forall x, q x = true -> p x = true) ->
  find p l = None -> find q l = None.
Proof.
  intros Hpq. induction l as [|x l IH]; simpl; [reflexivity|].
  destruct (p x) eqn:Hp; [discriminate|].
  destruct (q x) eqn:Hq; [|exact IH].
  apply Hpq in Hq. congruence.
Qed.

Lemma has_key_prefix (k : string) (e : string * content) :
  has_key k e = true -> has_prefix k e = true.
Proof.
  unfold has_key, has_prefix. intros H.
  apply String.eqb_eq in H. rewrite H. apply prefix_refl.
Qed.

Lemma cache_lookup_exact store key rks e :
  find (has_key key) store = Some e ->
  cache_lookup store key rks = Some e.
Proof. unfold cache_lookup. now intros ->. Qed.

Lemma cache_lookup_fallback store key fb :
  find (has_prefix key) store = None ->
  cache_lookup store key [fb] = find (has_prefix fb) store.
Proof.
  intros H. unfold cache_lookup.
  rewrite (find_none_weaken _ (has_key key) store (has_key_prefix key) H).
  simpl. rewrite H. now destruct (find (has_prefix fb) store).
Qed.

(** C1, as stated, fails: on a sample run the action also exports
    CURRENT_DATE, which is none of the four variables of the claim. *)
Lemma numba_cache_exports_current_date :
  lookup_last "CURRENT_DATE"
    (env (NumbaCache.run sample_inputs sample_runner)) = Some "02/11/2026"
  /\ ~ In "CURRENT_DATE"
       ["NUMBA_CACHE_DIR"; "NUMBA_CPU_NAME"; "NUMBA_CPU_FEATURES";
        "CACHING_CICD_RUNNING"]
  /\ map fst (env (NumbaCache.run sample_inputs sample_runner)) <>
     ["NUMBA_CACHE_DIR"; "NUMBA_CPU_NAME"; "NUMBA_CPU_FEATURES";
      "CACHING_CICD_RUNNING"].
Proof.
  split; [vm_compute; reflexivity|]. split.
  - simpl. intros [H|[H|[H|[H|[]]]]]; discriminate H.
  - vm_compute. intros H. discriminate H.
Qed.

(** C1 (amended): every invocation of the numba cache action on a job that
    has not failed appends to GITHUB_ENV exactly five bindings, in this
    order: NUMBA_CACHE_DIR = <workspace>/.numba_cache, NUMBA_CPU_NAME =
    generic, NUMBA_CPU_FEATURES = the fixed feature string,
    CACHING_CICD_RUNNING = 1 and CURRENT_DATE = the day as dd/mm/YYYY; it
    appends nothing else to GITHUB_ENV, and to GITHUB_PATH only the Git
    usr\bin directory when the runner_os input is Windows. *)
Theorem numba_cache_exports (i : NumbaCache.inputs) (r : runner) :
  failed r = false ->
  env (NumbaCache.run i r) =
    app (env r)
     [ ("NUMBA_CACHE_DIR", gh_workspace (ctx r) ++ "/.numba_cache");
       ("NUMBA_CPU_NAME", "generic");
       ("NUMBA_CPU_FEATURES", NumbaCache.cpu_features);
       ("CACHING_CICD_RUNNING", "1");
       ("CURRENT_DATE", date_dmy (clock (ctx r))) ]
  /\ path (NumbaCache.run i r) =
       (path r ++
        if gh_eq (NumbaCache.runner_os_input i) "Windows"
        then [NumbaCache.git_usr_bin] else [])%list.
Proof.
  intros Hr. destruct (numba_cache_run_fields i r Hr) as (He & Hp & _).
  split; [exact He | exact Hp].
Qed.

Lemma numba_cache_exports_witness :
  failed sample_runner = false
  /\ env (NumbaCache.run sample_inputs sample_runner) =
       [ ("NUMBA_CACHE_DIR", "/home/runner/work/aeon/aeon/.numba_cache");
         ("NUMBA_CPU_NAME", "generic");
         ("NUMBA_CPU_FEATURES", NumbaCache.cpu_features);
         ("CACHING_CICD_RUNNING", "1");
         ("CURRENT_DATE", "02/11/2026") ].
Proof.
  split; [reflexivity|].
  exact (proj1 (numba_cache_exports sample_inputs sample_runner eq_refl)).
Defined.

(** C2: when the restore_cache input is 'true' (and the job has not failed
    before the action), the restore looks the key
    numba-<cache_name>-<runner_os>-<python_version>-<current date> up first:
    an entry with exactly that key is the one restored; when no entry
    matches the dated key, the most recent entry whose key starts with
    numba-<cache_name>-<runner_os>-<python_version>- is restored, and the
    cache directory is left alone when there is none. *)
Theorem numba_cache_restore_order (i : NumbaCache.inputs) (r : runner) :
  failed r = false ->
  NumbaCache.restore_cache_input i = "true" ->
  let key :=
    "numba-" ++ NumbaCache.cache_name i ++ "-" ++ NumbaCache.runner_os_input i
    ++ "-" ++ NumbaCache.python_version i ++ "-" ++ date_dmy (clock (ctx r)) in
  let fallback :=
    "numba-" ++ NumbaCache.cache_name i ++ "-" ++ NumbaCache.runner_os_input i
    ++ "-" ++ NumbaCache.python_version i ++ "-" in
  let dir := gh_workspace (ctx r) ++ "/.numba_cache" in
  let r' := NumbaCache.run i r in
  (forall e, find (has_key key) (caches r) = Some e ->
     fst e = key /\ files r' = write_dir dir (snd e) (files r))
  /\ (find (has_prefix key) (caches r) = None ->
      files r' =
        match find (has_prefix fallback) (caches r) with
        | Some e => write_dir dir (snd e) (files r)
        | None => files r
        end).
Proof.
  intros Hr Hin key fallback dir r'.
  destruct (numba_cache_run_fields i r Hr) as (_ & _ & Hf & _).
  rewrite Hin in Hf. change (gh_eq "true" "true") with true in Hf.
  assert (Hk : NumbaCache.dated_key (NumbaCache.cache_name i)
                 (NumbaCache.runner_os_input i) (NumbaCache.python_version i)
                 (date_dmy (clock (ctx r))) = key).
  { unfold NumbaCache.dated_key, NumbaCache.key_prefix, key.
    rewrite !append_assoc. reflexivity. }
  rewrite Hk in Hf.
  change (NumbaCache.key_prefix (NumbaCache.cache_name i)
            (NumbaCache.runner_os_input i) (NumbaCache.python_version i))
    with fallback in Hf.
  change (NumbaCache.cache_dir r) with dir in Hf.
  split.
  - intros e He. split.
    + apply find_some in He. destruct He as [_ He].
      apply String.eqb_eq in He. exact He.
    + fold r' in Hf. rewrite Hf.
      now rewrite (cache_lookup_exact _ _ _ _ He).
  - intros Hn. fold r' in Hf. rewrite Hf.
    now rewrite (cache_lookup_fallback _ _ _ Hn).
Qed.

Lemma numba_cache_restore_order_witness :
  failed stocked_runner = false
  /\ NumbaCache.restore_cache_input sample_inputs = "true"
  /\ files (NumbaCache.run sample_inputs stocked_runner) =
       [ ("/home/runner/work/aeon/aeon/.numba_cache", "archive of 1 November") ].
Proof.
  split; [reflexivity|]. split; [reflexivity|].
  exact (proj2 (numba_cache_restore_order sample_inputs stocked_runner
                  eq_refl eq_refl) eq_refl).
Defined.

(** C8: with restore_cache 'false' the Restore cache step does not run: the
    action still appends its five variables (NUMBA_CACHE_DIR,
    NUMBA_CPU_NAME, NUMBA_CPU_FEATURES, CACHING_CICD_RUNNING, CURRENT_DATE)
    to GITHUB_ENV and leaves the files of the workspace, the cache directory
    among them, and the cache service as they were; an omitted
    restore_cache input reads as 'true'. *)
Theorem numba_cache_without_restore (i : NumbaCache.inputs) (r : runner) :
  failed r = false ->
  NumbaCache.restore_cache i = Some "false" ->
  (forall r0, run_step (NumbaCache.restore i) r0 = r0)
  /\ map fst (env (NumbaCache.run i r)) =
       (map fst (env r) ++
        [ "NUMBA_CACHE_DIR"; "NUMBA_CPU_NAME"; "NUMBA_CPU_FEATURES";
          "CACHING_CICD_RUNNING"; "CURRENT_DATE" ])%list
  /\ files (NumbaCache.run i r) = files r
  /\ read_dir (NumbaCache.cache_dir r) (files (NumbaCache.run i r)) =
       read_dir (NumbaCache.cache_dir r) (files r)
  /\ caches (NumbaCache.run i r) = caches r
  /\ (forall name os_ version,
        NumbaCache.restore_cache_input
          {| NumbaCache.cache_name := name;
             NumbaCache.runner_os_input := os_;
             NumbaCache.python_version := version;
             NumbaCache.restore_cache := None |} = "true").
Proof.
  intros Hr Hin.
  assert (Hoff : gh_eq (NumbaCache.restore_cache_input i) "true" = false).
  { unfold NumbaCache.restore_cache_input. rewrite Hin. reflexivity. }
  destruct (numba_cache_run_fields i r Hr) as (He & _ & Hf & Hc & _).
  rewrite Hoff in Hf.
  split; [|split; [|split; [|split; [|split]]]].
  - intros r0. unfold run_step, NumbaCache.restore, guarded, when. simpl.
    rewrite Hoff, andb_false_r. reflexivity.
  - rewrite He, map_app. reflexivity.
  - exact Hf.
  - now rewrite Hf.
  - exact Hc.
  - reflexivity.
Qed.

Lemma numba_cache_without_restore_witness :
  failed stocked_runner = false
  /\ files (NumbaCache.run
              {| NumbaCache.cache_name := "pytest";
                 NumbaCache.runner_os_input := "Linux";
                 NumbaCache.python_version := "3.12";
                 NumbaCache.restore_cache := Some "false" |} stocked_runner) = [].
Proof.
  split; [reflexivity|].
  exact (proj1 (proj2 (proj2
    (numba_cache_without_restore
       {| NumbaCache.cache_name := "pytest";
          NumbaCache.runner_os_input := "Linux";
          NumbaCache.python_version := "3.12";
          NumbaCache.restore_cache := Some "false" |}
       stocked_runner eq_refl eq_refl)))).
Defined.

(** ** The cpu_all_extras action *)

Lemma lower_ascii_fixes (c d : ascii) :
  letter d = false -> (lower_ascii c = d <-> c = d).
Proof.
  intros Hd. split; intros H.
  - subst d. revert Hd.
    destruct c as [[] [] [] [] [] [] [] []]; vm_compute; intros H;
      first [reflexivity | discriminate H].
  - subst d. revert Hd.
    destruct c as [[] [] [] [] [] [] [] []]; vm_compute; intros H;
      first [reflexivity | discriminate H].
Qed.

Lemma lower_fixes (s t : string) :
  no_letter t = true -> (lower s = t <-> s = t).
Proof.
  revert t. induction s as [|c s IH]; intros [|d t]; simpl;
    try (intros _; split; discriminate); [intros _; split; reflexivity|].
  intros Ht. apply andb_prop in Ht. destruct Ht as [Hd Ht].
  apply negb_true_iff in Hd.
  split; intros H; injection H as Hc Hs.
  - apply (lower_ascii_fixes c d Hd) in Hc. apply (IH t Ht) in Hs.
    now subst.
  - apply (lower_ascii_fixes c d Hd) in Hc. apply (IH t Ht) in Hs.
    now rewrite Hc, Hs.
Qed.

Lemma gh_eq_exact (s t : string) :
  no_letter t = true -> gh_eq s t = String.eqb s t.
Proof.
  intros Ht. unfold gh_eq.
  assert (Hl : lower t = t) by now apply lower_fixes.
  rewrite Hl.
  destruct (String.eqb s t) eqn:E.
  - apply String.eqb_eq in E. apply String.eqb_eq. now apply lower_fixes.
  - apply String.eqb_neq. apply String.eqb_neq in E.
    intros H. apply E. now apply lower_fixes.
Qed.

Lemma os_is_linux (o : os) :
  gh_eq (os_name o) "Linux" = match o with Linux => true | _ => false end.
Proof. destruct o; reflexivity. Qed.

(** ** Evaluating one step *)

Lemma run_step_named (n : string) (b : runner -> body) (r : runner) :
  failed r = false ->
  run_step (named n b) r = run_body (b r) r.
Proof. intros Hr. unfold run_step, named, success. simpl. now rewrite Hr. Qed.

Lemma run_step_failed (s : step) (r : runner) :
  failed r = true -> s_if s r = false -> run_step s r = r.
Proof. intros _ H. unfold run_step. now rewrite H. Qed.

Lemma run_retry_first (cmd : string) (m : nat) (r : runner) :
  cmd_ok (ctx r) cmd 1 = true ->
  run_retry cmd (S m) 1 r = add_log (Cmd cmd) r.
Proof. intros H. simpl. now rewrite H. Qed.

(** The attempts of a retried command: it is run at most [m] times, at least
    once when [m] is not zero, once when the first attempt succeeds, and the
    job fails exactly when no attempt succeeds. *)
Lemma run_retry_attempts (cmd : string) (m n : nat) (r : runner) :
  exists k,
    k <= m
    /\ log (run_retry cmd m n r) = (log r ++ repeat (Cmd cmd) k)%list
    /\ ctx (run_retry cmd m n r) = ctx r
    /\ (m <> 0 -> k <> 0)
    /\ failed (run_retry cmd m n r) =
         failed r || negb (existsb (cmd_ok (ctx r) cmd) (seq n m))
    /\ (cmd_ok (ctx r) cmd n = true -> k <= 1).
Proof.
  revert n r. induction m as [|m IH]; intros n r.
  - exists 0. simpl. rewrite app_nil_r, orb_true_r.
    repeat split; auto.
  - simpl. destruct (cmd_ok (ctx r) cmd n) eqn:E.
    + exists 1. simpl. rewrite orb_false_r.
      repeat split; auto. lia.
    + destruct (IH (S n) (add_log (Cmd cmd) r)) as (k & A & B & C & D & F & G).
      exists (S k). simpl in *. rewrite B, C, F, <- app_assoc.
      repeat split; auto. lia. discriminate.
Qed.

(** A step that wraps a command in nick-fields/retry with three attempts,
    guarded by [success() && g]. *)
Lemma retry_step_attempts (s : step) (g : bool) (t : nat) (cmd : string)
    (r : runner) :
  s_if s r = success r && g -> s_body s r = Retry t 3 cmd ->
  exists k,
    k <= 3
    /\ log (run_step s r) = (log r ++ repeat (Cmd cmd) k)%list
    /\ ctx (run_step s r) = ctx r
    /\ (k <> 0 <-> failed r = false /\ g = true)
    /\ failed (run_step s r) =
         failed r || (g && negb (succeeds_within (ctx r) cmd 3))
    /\ (cmd_ok (ctx r) cmd 1 = true -> k <= 1).
Proof.
  intros Hif Hb. unfold run_step. rewrite Hif, Hb. unfold success.
  destruct (failed r) eqn:Hf; simpl.
  - exists 0. simpl. rewrite app_nil_r, Hf.
    repeat split; auto; try lia; try (intros [H _]; discriminate H);
      try (intros H; exfalso; apply H; reflexivity).
  - destruct g; simpl.
    + destruct (run_retry_attempts cmd 3 1 r) as (k & A & B & C & D & F & G).
      exists k. simpl in B, F. rewrite Hf in F. simpl in F.
      repeat split; auto; try (intros _; apply D; discriminate).
    + exists 0. simpl. rewrite app_nil_r, Hf.
      repeat split; auto; try lia; try (intros [_ H]; discriminate H);
      try (intros H; exfalso; apply H; reflexivity).
Qed.

(** C9, as stated, fails: on a Linux runner with python 3.12, when the
    tensorflow-cpu install fails on its three attempts the action stops, so
    torch is not installed although the runner is Linux and the final
    install is not run at all. *)
Lemma cpu_all_extras_tensorflow_failing :
  let i := {| CpuAllExtras.python_version := None;
              CpuAllExtras.additional_extras := None |} in
  let r := CpuAllExtras.run i (fresh (flaky_context 3)) in
  runner_os (flaky_context 3) = Linux
  /\ CpuAllExtras.python_version_input i <> "3.13"
  /\ log r = [ Cmd "python -m pip install tensorflow-cpu";
               Cmd "python -m pip install tensorflow-cpu";
               Cmd "python -m pip install tensorflow-cpu" ]
  /\ failed r = true
  /\ ~ In (Cmd CpuAllExtras.torch_command) (log r)
  /\ ~ In (Cmd (CpuAllExtras.install_command i)) (log r).
Proof.
  split; [reflexivity|]. split; [discriminate|].
  split; [vm_compute; reflexivity|]. split; [vm_compute; reflexivity|].
  split; intros H; vm_compute in H;
    repeat (destruct H as [H|H]; [discriminate H|]); exact H.
Qed.

(** C9 (amended): on a job that has not failed, the cpu_all_extras action
    runs, in this order, python -m pip install tensorflow-cpu, then python -m
    pip install torch --index-url https://download.pytorch.org/whl/cpu, then
    python -m pip install .[all_extras] with a comma and the
    additional_extras input after all_extras exactly when that input is not
    empty; each command is attempted at most three times.  The tensorflow-cpu
    install is attempted if and only if the runner OS is Linux and the
    python_version input is not 3.13; the torch install if and only if the
    runner OS is Linux and the tensorflow-cpu install, when due, succeeded
    within its three attempts; the final install if and only if each of the
    two earlier installs that was due succeeded.  The job is left not failed
    if and only if every install that was due succeeded within three
    attempts.  When every command succeeds at its first attempt, each
    command that is due runs once, and the final install runs. *)
Theorem cpu_all_extras_installs (i : CpuAllExtras.inputs) (r : runner) :
  failed r = false ->
  let version := CpuAllExtras.python_version_input i in
  let extras := CpuAllExtras.additional_extras_input i in
  let tensorflow := "python -m pip install tensorflow-cpu" in
  let torch :=
    "python -m pip install torch --index-url https://download.pytorch.org/whl/cpu" in
  let package :=
    "python -m pip install .[all_extras"
    ++ (if String.eqb extras "" then "" else "," ++ extras) ++ "]" ++ nl in
  let linux := runner_os (ctx r) = Linux in
  let tensorflow_due := linux /\ version <> "3.13" in
  let tensorflow_done :=
    tensorflow_due -> succeeds_within (ctx r) tensorflow 3 = true in
  let torch_done := linux -> succeeds_within (ctx r) torch 3 = true in
  exists a b c,
    log (CpuAllExtras.run i r) =
      (log r ++ repeat (Cmd tensorflow) a ++ repeat (Cmd torch) b
       ++ repeat (Cmd package) c)%list
    /\ a <= 3 /\ b <= 3 /\ c <= 3
    /\ (a <> 0 <-> tensorflow_due)
    /\ (b <> 0 <-> linux /\ tensorflow_done)
    /\ (c <> 0 <-> tensorflow_done /\ torch_done)
    /\ (failed (CpuAllExtras.run i r) = false <->
        tensorflow_done /\ torch_done
        /\ succeeds_within (ctx r) package 3 = true)
    /\ ((forall cmd, cmd_ok (ctx r) cmd 1 = true) ->
        a <= 1 /\ b <= 1 /\ c = 1).
Proof.
  intros Hr version extras tensorflow torch package linux tensorflow_due
    tensorflow_done torch_done.
  assert (Hcmd : CpuAllExtras.install_command i = package).
  { unfold CpuAllExtras.install_command, gh_ne, and_or, package, extras.
    rewrite gh_eq_exact by reflexivity.
    destruct (String.eqb (CpuAllExtras.additional_extras_input i) "") eqn:E.
    - apply String.eqb_eq in E. rewrite E. reflexivity.
    - reflexivity. }
  set (lin := match runner_os (ctx r) with Linux => true | _ => false end).
  set (due := lin && negb (String.eqb version "3.13")).
  assert (Hlin : linux <-> lin = true).
  { unfold linux, lin. destruct (runner_os (ctx r)); split; congruence. }
  assert (Hdue : tensorflow_due <-> due = true).
  { unfold tensorflow_due, due. rewrite Hlin, andb_true_iff, negb_true_iff.
    now rewrite String.eqb_neq. }
  change (CpuAllExtras.run i r) with
    (run_step (CpuAllExtras.install_dependencies i)
       (run_step CpuAllExtras.install_torch
          (run_step (CpuAllExtras.install_tensorflow i) r))).
  destruct (retry_step_attempts (CpuAllExtras.install_tensorflow i) due 30
              tensorflow r) as (a & A1 & A2 & A3 & A4 & A5 & A6).
  { unfold CpuAllExtras.install_tensorflow, guarded, when, due, lin, gh_ne.
    simpl. now rewrite os_is_linux, gh_eq_exact. }
  { reflexivity. }
  set (r1 := run_step (CpuAllExtras.install_tensorflow i) r) in *.
  destruct (retry_step_attempts CpuAllExtras.install_torch lin 30 torch r1)
    as (b & B1 & B2 & B3 & B4 & B5 & B6).
  { unfold CpuAllExtras.install_torch, guarded, when, lin. simpl.
    now rewrite A3, os_is_linux. }
  { reflexivity. }
  set (r2 := run_step CpuAllExtras.install_torch r1) in *.
  destruct (retry_step_attempts (CpuAllExtras.install_dependencies i) true 30
              package r2) as (c & K1 & K2 & K3 & K4 & K5 & K6).
  { unfold CpuAllExtras.install_dependencies, named. simpl.
    now rewrite andb_true_r. }
  { simpl. now rewrite Hcmd. }
  set (r3 := run_step (CpuAllExtras.install_dependencies i) r2) in *.
  rewrite A3 in B5, B6. rewrite B3, A3 in K5, K6.
  rewrite Hr in A4, A5. simpl in A5. rewrite A5 in B4, B5. rewrite B5 in K4, K5.
  exists a, b, c.
  split; [rewrite K2, B2, A2, <- !app_assoc; reflexivity|].
  split; [exact A1|]. split; [exact B1|]. split; [exact K1|].
  assert (Hdone : tensorflow_done <->
                  due && negb (succeeds_within (ctx r) tensorflow 3) = false).
  { unfold tensorflow_done. rewrite Hdue.
    destruct due, (succeeds_within (ctx r) tensorflow 3); simpl;
      split; auto; try discriminate. intros H. discriminate (H eq_refl). }
  assert (Htorch : torch_done <->
                   lin && negb (succeeds_within (ctx r) torch 3) = false).
  { unfold torch_done. rewrite Hlin.
    destruct lin, (succeeds_within (ctx r) torch 3); simpl;
      split; auto; try discriminate. intros H. discriminate (H eq_refl). }
  split; [rewrite A4, Hdue; tauto|].
  split; [rewrite B4, Hlin, Hdone; tauto|].
  split.
  { rewrite K4, Hdone, Htorch, orb_false_iff. tauto. }
  split.
  { rewrite K5, andb_true_l, !orb_false_iff, negb_false_iff, Hdone, Htorch.
    tauto. }
  intros Hok. pose proof (A6 (Hok _)) as Ha. pose proof (B6 (Hok _)) as Hb.
  pose proof (K6 (Hok _)) as Hc.
  split; [exact Ha|]. split; [exact Hb|].
  assert (Hs : forall cmd, succeeds_within (ctx r) cmd 3 = true).
  { intros cmd. unfold succeeds_within. simpl. now rewrite Hok. }
  rewrite !Hs in K4. simpl in K4. rewrite !andb_false_r in K4. simpl in K4.
  assert (c <> 0) by (apply K4; split; reflexivity). lia.
Qed.

Lemma cpu_all_extras_installs_witness :
  failed sample_runner = false
  /\ exists a b c,
       log (CpuAllExtras.run
              {| CpuAllExtras.python_version := Some "3.13";
                 CpuAllExtras.additional_extras := Some "dev" |}
              sample_runner) =
         (repeat (Cmd "python -m pip install tensorflow-cpu") a
          ++ repeat (Cmd "python -m pip install torch --index-url https://download.pytorch.org/whl/cpu") b
          ++ repeat (Cmd ("python -m pip install .[all_extras,dev]" ++ nl)) c)%list
       /\ a = 0 /\ b = 1 /\ c = 1.
Proof.
  split; [reflexivity|].
  destruct (cpu_all_extras_installs
              {| CpuAllExtras.python_version := Some "3.13";
                 CpuAllExtras.additional_extras := Some "dev" |}
              sample_runner eq_refl)
    as (a & b & c & Hlog & _ & _ & _ & Ha & Hb & _ & _ & Hone).
  exists a, b, c. split; [exact Hlog|].
  destruct (Hone (fun _ => eq_refl)) as (Ha1 & Hb1 & Hc1).
  assert (Ea : a = 0).
  { destruct a; [reflexivity|]. exfalso.
    assert (Hn : S a <> 0) by discriminate.
    apply Ha in Hn. destruct Hn as [_ Hn]. apply Hn. reflexivity. }
  assert (Eb : b <> 0).
  { apply Hb. split; [reflexivity|]. intros [_ Hn]. exfalso. apply Hn.
    reflexivity. }
  repeat split; try assumption. lia.
Defined.

(** ** Every step of the configuration *)

(** Splits a property of all steps into one goal for each step. *)
Ltac each_step :=
  unfold all_steps, jobs;
  apply Forall_flat_map; apply Forall_flat_map; unfold workflows;
  repeat (apply Forall_cons;
    [ simpl;
      repeat (apply Forall_cons;
        [ apply Forall_flat_map; simpl;
          repeat (apply Forall_cons;
            [ simpl; repeat (apply Forall_cons; [|]); try apply Forall_nil |]);
          try apply Forall_nil |]);
      try apply Forall_nil |]);
  try apply Forall_nil.

Lemma retry_settings_on (c : context) :
  Forall (fun s => forall r t m cmd,
            s_body s r = Retry t m cmd -> t = 30 /\ m = 3) (all_steps c).
Proof.
  remember (fun s : step => forall r t m cmd,
              s_body s r = Retry t m cmd -> t = 30 /\ m = 3) as P eqn:EP.
  each_step.
  all: subst P; intros r t m cmd H; simpl in H;
    first [discriminate H | injection H as <- <- _; split; reflexivity].
Qed.

Lemma no_other_retry_on (c : context) :
  Forall (fun s => forall r a args,
            s_body s r = Uses a args ->
            String.prefix "nick-fields/retry" a = false) (all_steps c).
Proof.
  remember (fun s : step => forall r a args,
              s_body s r = Uses a args ->
              String.prefix "nick-fields/retry" a = false) as P eqn:EP.
  each_step.
  all: subst P; intros r a args H; simpl in H;
    first [discriminate H | injection H as <- _; reflexivity].
Qed.

Lemma always_steps_on (c : context) :
  Forall (fun s => runs_after_failure s ->
            s = WeeklyMaintenance.always_create_app_token
            \/ s = WeeklyMaintenance.always_create_pull_request) (all_steps c).
Proof.
  remember (fun s : step => runs_after_failure s ->
              s = WeeklyMaintenance.always_create_app_token
              \/ s = WeeklyMaintenance.always_create_pull_request) as P eqn:EP.
  each_step.
  all: subst P; intros [r [Hf Hif]];
    first [ left; reflexivity | right; reflexivity
          | exfalso; revert Hif; unfold when, success; simpl;
            unfold when, success; rewrite Hf; discriminate ].
Qed.

Lemma action_steps_fail_with_job (s : step) :
  (exists i, In s (NumbaCache.steps i)) \/ (exists i, In s (CpuAllExtras.steps i)) ->
  (forall r t m cmd, s_body s r = Retry t m cmd -> t = 30 /\ m = 3)
  /\ (forall r a args, s_body s r = Uses a args ->
        String.prefix "nick-fields/retry" a = false)
  /\ ~ runs_after_failure s.
Proof.
  intros [[i Hin]|[i Hin]]; simpl in Hin;
    repeat (destruct Hin as [<-|Hin]); try contradiction.
  all: split; [|split].
  all: try (intros r t m cmd H; simpl in H;
            first [discriminate H | injection H as <- <- _; split; reflexivity]).
  all: try (intros r a args H; simpl in H; discriminate H).
  all: intros [r [Hf Hif]]; revert Hif; unfold when, success; simpl;
    unfold when, success; rewrite Hf; discriminate.
Qed.

(** C3, as stated, fails: in the weekly maintenance workflow two steps are
    guarded by always().  When the pre-commit autoupdate action fails, the
    job goes on to create the app token and the pull request; neither step
    is a retry wrapper. *)
Lemma steps_run_after_failure :
  let r := run_job WeeklyMaintenance.pre_commit_auto_update
             (fresh autoupdate_fails) in
  failed r = true
  /\ log r =
       [ Act "actions/checkout@v4"; Act "actions/setup-python@v5";
         Act "browniebroke/pre-commit-autoupdate-action@v1.0.0";
         Act "actions/create-github-app-token@v2";
         Act "peter-evans/create-pull-request@v7" ]
  /\ In WeeklyMaintenance.always_create_app_token (all_steps autoupdate_fails)
  /\ runs_after_failure WeeklyMaintenance.always_create_app_token
  /\ forall r0,
       is_retry (s_body WeeklyMaintenance.always_create_app_token r0) = false.
Proof.
  split; [vm_compute; reflexivity|].
  split; [vm_compute; reflexivity|].
  split.
  - unfold all_steps. apply in_flat_map.
    exists WeeklyMaintenance.pre_commit_auto_update. split.
    + unfold jobs. apply in_flat_map. exists WeeklyMaintenance.workflow.
      split; simpl; tauto.
    + simpl. tauto.
  - split.
    + exists (fail sample_runner). split; reflexivity.
    + intros r0. reflexivity.
Qed.

(** C3 (amended): every use of nick-fields/retry in the workflows and the
    composite actions sets timeout_minutes to 30 and max_attempts to 3, and
    no other step uses a retry action.  The retry wrappers are not the only
    provision for failures: the steps Create app token and create-pull-request
    of the weekly pre-commit-auto-update job are guarded by always(), and
    they are the only steps that run once their job has failed; every matrix
    strategy sets fail-fast to false. *)
Theorem retry_wrappers (s : step) :
  configured s ->
  (forall r ref, uses_of (s_body s r) = Some ref ->
     String.prefix "nick-fields/retry" ref = true ->
     exists cmd, s_body s r = Retry 30 3 cmd)
  /\ (runs_after_failure s ->
        s = WeeklyMaintenance.always_create_app_token
        \/ s = WeeklyMaintenance.always_create_pull_request)
  /\ (forall j st, In j jobs -> j_strategy j = Some st -> fail_fast st = false).
Proof.
  intros Hs.
  assert (Hff : forall j st, In j jobs -> j_strategy j = Some st ->
                  fail_fast st = false).
  { intros j st Hj. unfold jobs in Hj. simpl in Hj.
    repeat (destruct Hj as [<-|Hj]); try contradiction; simpl; intros H;
      first [discriminate H | injection H as <-; reflexivity]. }
  assert (Huses :
    (forall r t m cmd, s_body s r = Retry t m cmd -> t = 30 /\ m = 3) ->
    (forall r a args, s_body s r = Uses a args ->
       String.prefix "nick-fields/retry" a = false) ->
    forall r ref, uses_of (s_body s r) = Some ref ->
      String.prefix "nick-fields/retry" ref = true ->
      exists cmd, s_body s r = Retry 30 3 cmd).
  { intros H1 H2 r ref Hu Hp.
    destruct (s_body s r) as [sc|t m cmd|d k rk|d k|a args] eqn:Eb;
      simpl in Hu; try discriminate Hu; injection Hu as <-;
      try discriminate Hp.
    - destruct (H1 r t m cmd Eb) as [-> ->]. exists cmd. reflexivity.
    - rewrite (H2 r a args Eb) in Hp. discriminate Hp. }
  destruct Hs as [[c Hin]|Hs].
  - pose proof (retry_settings_on c) as H1.
    pose proof (no_other_retry_on c) as H2.
    pose proof (always_steps_on c) as H3.
    rewrite Forall_forall in H1, H2, H3.
    split; [|split].
    + exact (Huses (H1 s Hin) (H2 s Hin)).
    + exact (H3 s Hin).
    + exact Hff.
  - destruct (action_steps_fail_with_job s Hs) as (H1 & H2 & H3).
    split; [|split].
    + exact (Huses H1 H2).
    + intros H. contradiction.
    + exact Hff.
Qed.

Lemma retry_wrappers_witness :
  configured CpuAllExtras.install_torch
  /\ exists cmd, s_body CpuAllExtras.install_torch sample_runner = Retry 30 3 cmd.
Proof.
  assert (H : configured CpuAllExtras.install_torch).
  { right. right.
    exists {| CpuAllExtras.python_version := None;
              CpuAllExtras.additional_extras := None |}.
    simpl. tauto. }
  split; [exact H|].
  exact (proj1 (retry_wrappers CpuAllExtras.install_torch H)
           sample_runner "nick-fields/retry@v3" eq_refl eq_refl).
Defined.

(** ** Extras groups *)

Lemma scan_extras_skip (w t : string) :
  no_open_bracket w = true ->
  scan_extras (w ++ t) false "" = scan_extras t false "".
Proof.
  induction w as [|c w IH]; simpl; [reflexivity|].
  intros H. apply andb_prop in H. destruct H as [Hc Hw].
  apply negb_true_iff in Hc. rewrite Hc. exact (IH Hw).
Qed.

Lemma unix_install_extras (r : runner) :
  no_open_bracket (env_get "WHEELNAME" r) = true ->
  extras_of (Release.unix_install_command r) = ["all_extras"; "dev"].
Proof.
  intros H. unfold extras_of, Release.unix_install_command.
  change (scan_extras (env_get "WHEELNAME" r ++ "[all_extras,dev]" ++ dq)
            false "" = ["all_extras"; "dev"]).
  rewrite (scan_extras_skip _ _ H). reflexivity.
Qed.

Lemma extras_on (c : context) :
  Forall (fun s => forall r,
            no_open_bracket (env_get "WHEELNAME" r) = true ->
            forall cmd, In cmd (commands_of (s_body s r)) ->
            forall x, In x (extras_of cmd) -> In x extras_groups)
    (all_steps c).
Proof.
  remember (fun s : step => forall r,
              no_open_bracket (env_get "WHEELNAME" r) = true ->
              forall cmd, In cmd (commands_of (s_body s r)) ->
              forall x, In x (extras_of cmd) -> In x extras_groups)
    as P eqn:EP.
  each_step.
  all: subst P; intros r Hw cmd Hc x Hx; simpl in Hc.
  all: try contradiction.
  all: repeat (destruct Hc as [Hc|Hc]); try contradiction; subst cmd.
  all: try (vm_compute in Hx; vm_compute; tauto).
  all: try (rewrite unix_install_extras in Hx by exact Hw; simpl in Hx |- *; tauto).
  all: try (destruct (PrPytest.pr_testing (ctx r)); vm_compute in Hx; tauto).
Qed.

Lemma in_all_steps (c : context) (w : workflow) (j : job) (js : job_step)
    (s : step) :
  In w workflows -> In j (w_jobs w) -> In js (j_steps j) ->
  In s (expand c js) -> In s (all_steps c).
Proof.
  intros Hw Hj Hjs Hs. unfold all_steps. apply in_flat_map.
  exists j. split.
  - unfold jobs. apply in_flat_map. exists w. split; assumption.
  - apply in_flat_map. exists js. split; assumption.
Qed.

(** The four groups are all in use. *)
Lemma extras_of_examples :
  extras_of "python -m pip install .[all_extras,binder,dev]" =
    ["all_extras"; "binder"; "dev"]
  /\ extras_of "python -m pip install .[all_extras,unstable_extras,dev] mypy" =
       ["all_extras"; "unstable_extras"; "dev"]
  /\ extras_of "python -m pip install ." = []
  /\ extras_of
       (CpuAllExtras.install_command
          {| CpuAllExtras.python_version := None;
             CpuAllExtras.additional_extras := Some "unstable_extras,dev" |}) =
       ["all_extras"; "unstable_extras"; "dev"].
Proof. repeat split; reflexivity. Qed.

(** C4: on every step of every job, the calls of the composite actions
    unfolded with the inputs the workflows pass, each extras group named
    between the brackets of a command line is one of all_extras, dev,
    unstable_extras, binder.  The name of the wheel that the release job
    reads from WHEELNAME is taken to hold no opening bracket. *)
Theorem extras_groups_referenced (c : context) (s : step) (r : runner)
    (cmd x : string) :
  In s (all_steps c) ->
  no_open_bracket (env_get "WHEELNAME" r) = true ->
  In cmd (commands_of (s_body s r)) ->
  In x (extras_of cmd) ->
  In x extras_groups.
Proof.
  intros Hs Hw Hc Hx. pose proof (extras_on c) as H.
  rewrite Forall_forall in H. exact (H s Hs r Hw cmd Hc x Hx).
Qed.

Lemma extras_groups_referenced_witness :
  In "binder" extras_groups.
Proof.
  apply (extras_groups_referenced sample_context
           (named "Install dependencies" (fun _ =>
              Retry 30 3 "python -m pip install .[all_extras,binder,dev]"))
           sample_runner
           "python -m pip install .[all_extras,binder,dev]" "binder").
  - apply (in_all_steps _ PeriodicTests.workflow
             PeriodicTests.run_notebook_examples
             (retry_install "Install dependencies"
                "python -m pip install .[all_extras,binder,dev]")).
    + simpl. tauto.
    + simpl. tauto.
    + simpl. tauto.
    + simpl. tauto.
  - reflexivity.
  - simpl. tauto.
  - vm_compute. tauto.
Defined.

(** ** Test runs *)







(** ** Concurrency groups *)

Section Groups.

Import Engine.

Lemma in_groups (g : string) (l : list run) :
  In g (groups l) <-> existsb (in_group g) l = true.
Proof.
  induction l as [|r l IH]; simpl; [split; [tauto | discriminate]|].
  unfold in_group at 1. destruct (run_group r) as [g'|]; simpl.
  - rewrite orb_true_iff, <- IH, String.eqb_eq. split; intros [H|H]; auto.
  - exact IH.
Qed.

Lemma groups_filter_incl (p : run -> bool) (l : list run) (g : string) :
  In g (groups (filter p l)) -> In g (groups l).
Proof.
  induction l as [|r l IH]; simpl; [tauto|].
  destruct (p r); simpl; destruct (run_group r); simpl; tauto.
Qed.

Lemma groups_filter_nodup (p : run -> bool) (l : list run) :
  NoDup (groups l) -> NoDup (groups (filter p l)).
Proof.
  induction l as [|r l IH]; simpl; [trivial|].
  destruct (run_group r) as [g|] eqn:Eg.
  - intros H. inversion H as [|? ? Hn Hl]; subst.
    destruct (p r); simpl; [|auto]. rewrite Eg. constructor; [|auto].
    intros Hin. apply Hn. exact (groups_filter_incl p l g Hin).
  - intros H. destruct (p r); simpl; [rewrite Eg|]; auto.
Qed.

Lemma others_free (g : string) (l : list run) : ~ In g (groups (others g l)).
Proof.
  unfold others. induction l as [|r l IH]; simpl; [tauto|].
  destruct (in_group g r) eqn:E; simpl; [exact IH|].
  unfold in_group in E. destruct (run_group r) as [g'|]; simpl; [|exact IH].
  intros [H|H]; [|exact (IH H)].
  subst g'. rewrite String.eqb_refl in E. discriminate E.
Qed.

Lemma others_none (g : string) (l : list run) :
  filter (in_group g) (others g l) = [].
Proof.
  unfold others. induction l as [|r l IH]; simpl; [reflexivity|].
  destruct (in_group g r) eqn:E; simpl; [exact IH|]. now rewrite E.
Qed.

Lemma start_keeps_groups_apart id w c st :
  NoDup (groups (in_progress st)) ->
  NoDup (groups (in_progress (start id w c st))).
Proof.
  intros H. unfold start. destruct (group_of w c) as [g|] eqn:Eg.
  - destruct (cancels w).
    + simpl. rewrite ?Eg. constructor; [apply others_free|].
      now apply groups_filter_nodup.
    + destruct (existsb (in_group g) (in_progress st)) eqn:Ex; simpl; [exact H|].
      rewrite ?Eg. constructor; [|exact H].
      intros Hin. apply in_groups in Hin. congruence.
  - simpl. rewrite ?Eg. exact H.
Qed.

Lemma promote_keeps_groups_apart (waiting running : list run) :
  NoDup (groups running) ->
  NoDup (groups (in_progress (promote waiting running))).
Proof.
  revert running. induction waiting as [|r waiting IH]; intros running H;
    simpl; [exact H|].
  unfold blocked. destruct (run_group r) as [g|] eqn:Eg.
  - destruct (existsb (in_group g) running) eqn:Ex; simpl.
    + apply IH. exact H.
    + apply IH. simpl. rewrite Eg. constructor; [|exact H].
      intros Hin. apply in_groups in Hin. congruence.
  - apply IH. simpl. rewrite Eg. exact H.
Qed.

Lemma handle_keeps_groups_apart (st : state) (e : event) :
  NoDup (groups (in_progress st)) ->
  NoDup (groups (in_progress (handle st e))).
Proof.
  intros H. destruct e as [id w c|id]; simpl.
  - now apply start_keeps_groups_apart.
  - unfold finish. apply promote_keeps_groups_apart.
    now apply groups_filter_nodup.
Qed.

Lemma fold_keeps_groups_apart (evs : list event) (st : state) :
  NoDup (groups (in_progress st)) ->
  NoDup (groups (in_progress (fold_left handle evs st))).
Proof.
  revert st. induction evs as [|e evs IH]; intros st H; simpl; [exact H|].
  apply IH. now apply handle_keeps_groups_apart.
Qed.

(** Every concurrency block of the configuration cancels in progress. *)
Lemma configuration_cancels (w : workflow) (k : concurrency) :
  In w workflows -> w_concurrency w = Some k -> cancel_in_progress k = true.
Proof.
  intros Hw. simpl in Hw.
  repeat (destruct Hw as [<-|Hw]); try contradiction; simpl; intros H;
    first [discriminate H | injection H as <-; reflexivity].
Qed.

Lemma configuration_start id w c g st :
  In w workflows -> group_of w c = Some g ->
  start id w c st =
    {| in_progress := {| run_id := id; run_group := Some g |}
                      :: others g (in_progress st);
       pending := others g (pending st) |}.
Proof.
  intros Hw Hg. unfold start. rewrite Hg.
  assert (Hc : cancels w = true).
  { unfold cancels. unfold group_of in Hg.
    destruct (w_concurrency w) as [k|] eqn:Ek; [|discriminate Hg].
    exact (configuration_cancels w k Hw Ek). }
  now rewrite Hc.
Qed.

(** No run of the configuration ever waits. *)
Lemma configuration_never_waits (evs : list event) (st : state) :
  Forall of_configuration evs -> pending st = [] ->
  pending (fold_left handle evs st) = [].
Proof.
  revert st. induction evs as [|e evs IH]; intros st He Hp; simpl; [exact Hp|].
  inversion He as [|? ? He1 He2]; subst. apply IH; [exact He2|].
  destruct e as [id w c|id]; simpl.
  - simpl in He1. destruct (group_of w c) as [g|] eqn:Eg.
    + rewrite (configuration_start id w c g st He1 Eg). simpl.
      now rewrite Hp.
    + unfold start. rewrite Eg. exact Hp.
  - unfold finish. now rewrite Hp.
Qed.

End Groups.

(** C10: every workflow of the configuration that declares a concurrency
    block sets cancel-in-progress to true.  Hence, whatever runs of these
    workflows start and finish, no two runs in progress share a concurrency
    group and no run waits; starting a run in a group cancels the runs of
    the group in progress: straight after, the new run is the only one of
    its group. *)
Theorem one_run_per_group :
  (forall w k, In w workflows -> w_concurrency w = Some k ->
     cancel_in_progress k = true)
  /\ (forall evs, Forall Engine.of_configuration evs ->
        NoDup (Engine.groups (Engine.in_progress (Engine.run_events evs)))
        /\ Engine.pending (Engine.run_events evs) = [])
  /\ (forall evs id w c g,
        Forall Engine.of_configuration evs ->
        In w workflows -> Engine.group_of w c = Some g ->
        let st := Engine.start id w c (Engine.run_events evs) in
        filter (Engine.in_group g) (Engine.in_progress st) =
          [ {| Engine.run_id := id; Engine.run_group := Some g |} ]
        /\ filter (Engine.in_group g) (Engine.pending st) = []).
Proof.
  split; [exact configuration_cancels|]. split.
  - intros evs He. split.
    + apply fold_keeps_groups_apart. constructor.
    + now apply configuration_never_waits.
  - intros evs id w c g He Hw Hg st. unfold st.
    rewrite (configuration_start id w c g _ Hw Hg). simpl.
    unfold Engine.in_group at 1. simpl. rewrite String.eqb_refl.
    rewrite !others_none. split; reflexivity.
Qed.

Lemma one_run_per_group_witness :
  filter (Engine.in_group "PR pytest-fix-docs")
    (Engine.in_progress
       (Engine.run_events
          [ Engine.Start 1 PrPytest.workflow sample_context;
            Engine.Start 2 PrPytest.workflow sample_context ])) =
  [ {| Engine.run_id := 2; Engine.run_group := Some "PR pytest-fix-docs" |} ].
Proof.
  assert (Hw : In PrPytest.workflow workflows) by (simpl; tauto).
  exact (proj1 (proj2 (proj2 one_run_per_group)
                  [Engine.Start 1 PrPytest.workflow sample_context]
                  2 PrPytest.workflow sample_context "PR pytest-fix-docs"
                  (Forall_cons (P := Engine.of_configuration)
                     (Engine.Start 1 PrPytest.workflow sample_context) Hw
                     (Forall_nil _)) Hw eq_refl)).
Defined.

(** ** Saved caches *)

Lemma plain_script_keeps (s : list effect) (r : runner) :
  forallb (fun e => match e with AppendEnv _ _ => false | _ => true end) s = true ->
  failed r = false -> all_ok (ctx r) ->
  let r' := run_script s r in
  ctx r' = ctx r /\ env r' = env r /\ files r' = files r
  /\ caches r' = caches r /\ failed r' = false.
Proof.
  revert r. induction s as [|e s IH]; intros r Hs Hr Hok; simpl.
  - repeat split; assumption.
  - simpl in Hs. apply andb_prop in Hs. destruct Hs as [He Hs].
    destruct e as [k v|d|cmd]; [discriminate He| |].
    + simpl. rewrite Hr.
      destruct (IH (set_path (path r ++ [d]) r) Hs Hr Hok) as (A & B & C & D & E).
      repeat split; assumption.
    + simpl. rewrite (proj1 Hok). simpl. rewrite Hr.
      destruct (IH (add_log (Cmd cmd) r) Hs Hr Hok) as (A & B & C & D & E).
      repeat split; assumption.
Qed.

Lemma quiet_plain (s : step) :
  (forall r, plain (s_body s r) = true) -> quiet (Step s).
Proof.
  intros Hp r Hr Hok. simpl. unfold run_step.
  destruct (s_if s r); [|repeat split; assumption].
  specialize (Hp r). destruct (s_body s r) as [sc|t m cmd|d k rk|d k|a args];
    simpl in Hp; try discriminate Hp.
  - exact (plain_script_keeps sc r Hp Hr Hok).
  - destruct m as [|m]; [discriminate Hp|]. unfold run_body.
    rewrite run_retry_first by apply (proj1 Hok).
    repeat split; assumption.
  - simpl. rewrite (proj2 Hok). repeat split; assumption.
Qed.

Lemma quiet_steps (l : list job_step) (r : runner) :
  Forall quiet l -> failed r = false -> all_ok (ctx r) ->
  let r' := run_job_steps l r in
  ctx r' = ctx r /\ env r' = env r /\ files r' = files r
  /\ caches r' = caches r /\ failed r' = false.
Proof.
  intros Hl. revert r. induction Hl as [|js l Hq Hl IH]; intros r Hr Hok.
  - simpl. repeat split; assumption.
  - unfold run_job_steps. simpl fold_left.
    destruct (Hq r Hr Hok) as (A & B & C & D & E).
    assert (Hok' : all_ok (ctx (run_job_step js r))) by now rewrite A.
    destruct (IH (run_job_step js r) E Hok') as (A' & B' & C' & D' & E').
    unfold run_job_steps in *.
    repeat split; congruence.
Qed.

Lemma run_job_steps_app (l1 l2 : list job_step) (r : runner) :
  run_job_steps (l1 ++ l2) r = run_job_steps l2 (run_job_steps l1 r).
Proof. apply fold_left_app. Qed.

Lemma run_job_steps_cons (js : job_step) (l : list job_step) (r : runner) :
  run_job_steps (js :: l) r = run_job_steps l (run_job_step js r).
Proof. reflexivity. Qed.

Lemma run_job_steps_nil (r : runner) : run_job_steps [] r = r.
Proof. reflexivity. Qed.

(** A job of the shape of the saving jobs: plain steps, the numba_cache
    action without restore, plain steps, the save. *)
Lemma save_after_numba (front middle : list job_step) (name : string)
    (version : context -> string) (key : runner -> string) (r : runner)
    (archive : content) :
  Forall quiet front -> Forall quiet middle ->
  failed r = false -> all_ok (ctx r) ->
  read_dir (NumbaCache.cache_dir r) (files r) = Some archive ->
  (forall r1, ctx r1 = ctx r ->
     env_get "CURRENT_DATE" r1 = date_dmy (clock (ctx r)) ->
     key r1 = NumbaCache.dated_key name (os_name (runner_os (ctx r)))
                (version (ctx r)) (date_dmy (clock (ctx r)))) ->
  let saved := NumbaCache.dated_key name (os_name (runner_os (ctx r)))
                 (version (ctx r)) (date_dmy (clock (ctx r))) in
  caches (run_job_steps
            (front ++ PeriodicTests.numba_env_only name version
                   :: middle ++ [PeriodicTests.save_new_cache key]) r) =
  if existsb (has_key saved) (caches r) then caches r
  else (saved, archive) :: caches r.
Proof.
  intros Hf Hm Hr Hok Hdir Hkey saved.
  rewrite run_job_steps_app, run_job_steps_cons, run_job_steps_app,
    run_job_steps_cons, run_job_steps_nil.
  destruct (quiet_steps front r Hf Hr Hok) as (A1 & B1 & C1 & D1 & E1).
  set (r1 := run_job_steps front r) in *.
  (* the numba_cache action *)
  set (i := {| NumbaCache.cache_name := name;
               NumbaCache.runner_os_input := os_name (runner_os (ctx r1));
               NumbaCache.python_version := version (ctx r1);
               NumbaCache.restore_cache := Some "false" |}).
  assert (E2 : run_job_step (PeriodicTests.numba_env_only name version) r1 =
               NumbaCache.run i r1).
  { unfold PeriodicTests.numba_env_only, run_job_step, success.
    rewrite E1. reflexivity. }
  rewrite E2.
  destruct (numba_cache_run_fields i r1 E1) as (B2 & _ & C2 & D2 & _ & F2 & A2).
  change (gh_eq (NumbaCache.restore_cache_input i) "true") with false in C2.
  cbv iota in C2.
  set (r2 := NumbaCache.run i r1) in *.
  assert (Hok2 : all_ok (ctx r2)) by now rewrite A2, A1.
  destruct (quiet_steps middle r2 Hm F2 Hok2) as (A3 & B3 & C3 & D3 & E3).
  set (r3 := run_job_steps middle r2) in *.
  (* the save *)
  unfold PeriodicTests.save_new_cache, run_job_step.
  rewrite run_step_named by exact E3.
  assert (Hc : ctx r3 = ctx r) by congruence.
  assert (Hd : env_get "CURRENT_DATE" r3 = date_dmy (clock (ctx r))).
  { unfold env_get. rewrite B3, B2. unfold NumbaCache.exported.
    rewrite lookup_last_app. simpl. now rewrite A1. }
  rewrite (Hkey r3 Hc Hd). fold saved. rewrite Hc.
  change (gh_workspace (ctx r) ++ "/.numba_cache") with (NumbaCache.cache_dir r).
  unfold run_body.
  replace (files r3) with (files r) by congruence. rewrite Hdir.
  assert (Hca : caches r3 = caches r) by congruence.
  rewrite Hca.
  destruct (existsb (has_key saved) (caches r)); [exact Hca|].
  reflexivity.
Qed.

Lemma prefix_trans (a b c : string) :
  String.prefix a b = true -> String.prefix b c = true ->
  String.prefix a c = true.
Proof.
  revert b c. induction a as [|x a IH]; intros b c; [destruct c; reflexivity|].
  destruct b as [|y b]; simpl; [discriminate|].
  destruct c as [|z c]; simpl; [destruct (ascii_dec x y); discriminate|].
  destruct (ascii_dec x y) as [->|]; [|discriminate].
  destruct (ascii_dec y z) as [->|]; [|discriminate].
  apply IH.
Qed.

(** A restore finds an entry under the fallback prefix whenever the cache
    service holds one. *)
Lemma restore_hits (store : list (string * content)) (key fb : string)
    (e0 : string * content) :
  In e0 store -> has_prefix fb e0 = true -> String.prefix fb key = true ->
  exists e, cache_lookup store key [fb] = Some e /\ In e store
            /\ has_prefix fb e = true.
Proof.
  intros Hin Hfb Hkey. unfold cache_lookup.
  destruct (find (has_key key) store) as [e|] eqn:E1.
  - exists e. apply find_some in E1. destruct E1 as [Hi Hk].
    repeat split; [exact Hi|]. unfold has_key in Hk. unfold has_prefix.
    apply String.eqb_eq in Hk. now rewrite Hk.
  - simpl. destruct (find (has_prefix key) store) as [e|] eqn:E2.
    + exists e. apply find_some in E2. destruct E2 as [Hi Hk].
      repeat split; [exact Hi|]. unfold has_prefix in *.
      exact (prefix_trans _ _ _ Hkey Hk).
    + destruct (find (has_prefix fb) store) as [e|] eqn:E3.
      * exists e. apply find_some in E3. destruct E3 as [Hi Hk].
        repeat split; assumption.
      * exfalso. pose proof (find_none _ _ E3 e0 Hin) as H. congruence.
Qed.

Lemma dated_key_flat (name os_ version day : string) :
  NumbaCache.dated_key name os_ version day =
  "numba-" ++ name ++ "-" ++ os_ ++ "-" ++ version ++ "-" ++ day.
Proof.
  unfold NumbaCache.dated_key, NumbaCache.key_prefix.
  rewrite !append_assoc. reflexivity.
Qed.

Ltac all_quiet :=
  repeat (apply Forall_cons; [apply quiet_plain; intros ?; reflexivity|]);
  apply Forall_nil.

Lemma saving_jobs_save (j : job) (name : string) (version : context -> string)
    (r : runner) (archive : content) :
  In (j, name, version) PeriodicTests.saving_jobs ->
  failed r = false -> all_ok (ctx r) ->
  read_dir (NumbaCache.cache_dir r) (files r) = Some archive ->
  let saved := NumbaCache.dated_key name (os_name (runner_os (ctx r)))
                 (version (ctx r)) (date_dmy (clock (ctx r))) in
  caches (run_job j r) =
  if existsb (has_key saved) (caches r) then caches r
  else (saved, archive) :: caches r.
Proof.
  intros Hj Hr Hok Hdir. simpl in Hj.
  destruct Hj as [Hj|[Hj|[Hj|[]]]]; injection Hj as <- <- <-.
  - apply (save_after_numba
             [ checkout;
               Step (named "Install latest version of bash" (fun _ =>
                 Run [Shell "brew install bash";
                      Shell "/opt/homebrew/bin/bash --version"]));
               setup_python_312 ]
             [ retry_install "Install dependencies"
                 "python -m pip install .[all_extras,binder,dev]";
               show_dependencies;
               Step (named "Run example notebooks" (fun _ =>
                 Run [Shell ".github/utilities/run_examples.sh false"])) ]);
      try assumption; try all_quiet.
    intros r1 Hc Hd. rewrite Hc, Hd, dated_key_flat. reflexivity.
  - apply (save_after_numba
             [ checkout; setup_python_312 ]
             [ retry_install "Install aeon and dependencies"
                 "python -m pip install .[dev]";
               show_dependencies; run_tests pytest_logical ]);
      try assumption; try all_quiet.
    intros r1 Hc Hd. rewrite Hc, Hd, dated_key_flat. reflexivity.
  - apply (save_after_numba
             [ checkout; setup_python_matrix; clear_disk_space; set_swap_space ]
             [ retry_install "Install aeon and dependencies"
                 "python -m pip install .[all_extras,dev]";
               show_dependencies; run_tests pytest_logical ]);
      try assumption; try all_quiet.
    intros r1 Hc Hd. rewrite Hc, Hd, dated_key_flat. reflexivity.
Qed.

(** C5: each job of the periodic tests that saves a numba cache
    (run-notebook-examples, test-no-soft-deps, pytest), run with nothing
    failing on a runner whose numba cache directory holds an archive, saves
    it under numba-<cache_name>-<runner_os>-<python_version>-<CURRENT_DATE>
    (unless the cache service already holds that key).  This is the dated
    key that the restore step of the numba cache action computes for the
    same cache name, runner OS and python version on the same day, and it
    starts with the date-less fallback prefix of the action; so a later run
    of the action with the same inputs, on any day and with restore_cache
    left at its default, restores an entry of that prefix whenever the
    cache service still holds what the job left. *)
Theorem saved_cache_restorable (j : job) (name : string)
    (version : context -> string) (r : runner) (archive : content) :
  In (j, name, version) PeriodicTests.saving_jobs ->
  failed r = false -> all_ok (ctx r) ->
  read_dir (NumbaCache.cache_dir r) (files r) = Some archive ->
  let os_ := os_name (runner_os (ctx r)) in
  let saved :=
    "numba-" ++ name ++ "-" ++ os_ ++ "-" ++ version (ctx r) ++ "-"
    ++ date_dmy (clock (ctx r)) in
  let fallback := "numba-" ++ name ++ "-" ++ os_ ++ "-" ++ version (ctx r) ++ "-" in
  let inputs_on := fun c =>
    {| NumbaCache.cache_name := name;
       NumbaCache.runner_os_input := os_name (runner_os c);
       NumbaCache.python_version := version c;
       NumbaCache.restore_cache := None |} in
  caches (run_job j r) =
    (if existsb (has_key saved) (caches r) then caches r
     else (saved, archive) :: caches r)
  /\ s_body (NumbaCache.restore (inputs_on (ctx r)))
       (set_env (env r ++ NumbaCache.exported r) r) =
     CacheRestore (NumbaCache.cache_dir r) saved [fallback]
  /\ String.prefix fallback saved = true
  /\ forall r2,
       failed r2 = false ->
       runner_os (ctx r2) = runner_os (ctx r) ->
       version (ctx r2) = version (ctx r) ->
       (forall e, In e (caches (run_job j r)) -> In e (caches r2)) ->
       exists e,
         In e (caches r2) /\ String.prefix fallback (fst e) = true
         /\ files (NumbaCache.run (inputs_on (ctx r2)) r2) =
            write_dir (NumbaCache.cache_dir r2) (snd e) (files r2).
Proof.
  intros Hj Hr Hok Hdir os_ saved fallback inputs_on.
  pose proof (saving_jobs_save j name version r archive Hj Hr Hok Hdir) as Hsave.
  cbv zeta in Hsave. rewrite dated_key_flat in Hsave.
  fold os_ in Hsave. fold saved in Hsave.
  assert (Hfb : NumbaCache.key_prefix name os_ (version (ctx r)) = fallback).
  { reflexivity. }
  assert (Hpre : String.prefix fallback saved = true).
  { rewrite <- Hfb. replace saved with
      (NumbaCache.dated_key name os_ (version (ctx r)) (date_dmy (clock (ctx r))))
      by apply dated_key_flat.
    apply prefix_app. }
  split; [exact Hsave|]. split; [|split; [exact Hpre|]].
  - unfold NumbaCache.restore, guarded. simpl s_body.
    rewrite numba_cache_date_read. simpl NumbaCache.cache_name.
    simpl NumbaCache.runner_os_input. simpl NumbaCache.python_version.
    rewrite dated_key_flat. fold os_. fold saved. rewrite Hfb. reflexivity.
  - intros r2 Hr2 Hos Hv Hkept.
    assert (Hheld : exists e0, In e0 (caches (run_job j r))
                               /\ has_key saved e0 = true).
    { rewrite Hsave.
      destruct (existsb (has_key saved) (caches r)) eqn:Ex.
      - apply existsb_exists in Ex. exact Ex.
      - exists (saved, archive). split; [left; reflexivity|].
        unfold has_key. simpl. apply String.eqb_refl. }
    destruct Hheld as (e0 & Hin0 & Hk0).
    assert (Hfb0 : has_prefix fallback e0 = true).
    { unfold has_key in Hk0. apply String.eqb_eq in Hk0.
      unfold has_prefix. now rewrite Hk0. }
    destruct (numba_cache_run_fields (inputs_on (ctx r2)) r2 Hr2)
      as (_ & _ & Hfiles & _).
    change (gh_eq (NumbaCache.restore_cache_input (inputs_on (ctx r2))) "true")
      with true in Hfiles.
    cbv iota in Hfiles.
    simpl NumbaCache.cache_name in Hfiles.
    simpl NumbaCache.runner_os_input in Hfiles.
    simpl NumbaCache.python_version in Hfiles.
    rewrite Hos, Hv in Hfiles. fold os_ in Hfiles. rewrite Hfb in Hfiles.
    destruct (restore_hits (caches r2)
                (NumbaCache.dated_key name os_ (version (ctx r))
                   (date_dmy (clock (ctx r2))))
                fallback e0 (Hkept e0 Hin0) Hfb0) as (e & Hlook & Hin & Hp).
    { rewrite <- Hfb. apply prefix_app. }
    exists e. split; [exact Hin|]. split; [exact Hp|].
    rewrite Hfiles, Hlook. reflexivity.
Qed.

Lemma saved_cache_restorable_witness :
  failed built_runner = false
  /\ all_ok (ctx built_runner)
  /\ caches (run_job PeriodicTests.pytest built_runner) =
       [ ("numba-pytest-Linux-3.12-02/11/2026", "archive of 2 November") ].
Proof.
  split; [reflexivity|].
  assert (Hok : all_ok (ctx built_runner)) by (split; intros; reflexivity).
  split; [exact Hok|].
  exact (proj1 (saved_cache_restorable PeriodicTests.pytest "pytest"
                  matrix_python_version built_runner "archive of 2 November"
                  (or_intror (or_intror (or_introl eq_refl)))
                  eq_refl Hok eq_refl)).
Defined.

(** * Further properties *)

(** ** The numba_cache action and the cache service *)

(** X3: on a job that has not failed, whatever the inputs and whether or not
    an entry is restored, the numba cache action runs no command line besides
    its lines for GITHUB_ENV and GITHUB_PATH, and of actions only
    actions/cache/restore, exactly when the restore_cache input is 'true'
    (compared ignoring case); it leaves the cache service as it was and does
    not make the job fail. *)
Theorem numba_cache_harmless (i : NumbaCache.inputs) (r : runner) :
  failed r = false ->
  log (NumbaCache.run i r) =
    (log r ++
     if gh_eq (NumbaCache.restore_cache_input i) "true"
     then [Act "actions/cache/restore@v4"] else [])%list
  /\ caches (NumbaCache.run i r) = caches r
  /\ failed (NumbaCache.run i r) = false.
Proof.
  intros Hf.
  destruct (numba_cache_run_fields i r Hf) as (_ & _ & _ & Hc & Hl & Hfl & _).
  split; [exact Hl|]. split; assumption.
Qed.

Lemma numba_cache_harmless_witness :
  failed stocked_runner = false
  /\ log (NumbaCache.run sample_inputs stocked_runner) =
       [Act "actions/cache/restore@v4"]
  /\ caches (NumbaCache.run sample_inputs stocked_runner) = sample_store
  /\ failed (NumbaCache.run sample_inputs stocked_runner) = false.
Proof.
  split; [reflexivity|].
  exact (numba_cache_harmless sample_inputs stocked_runner eq_refl).
Defined.

Lemma read_write_dir (d : string) (c : content) (f : list (string * content)) :
  read_dir d (write_dir d c f) = Some c.
Proof. unfold write_dir. simpl. now rewrite String.eqb_refl. Qed.

(** X1: after the numba cache action (on a job that has not failed), reading
    any of its five variables from the environment gives the value the
    action wrote, whatever GITHUB_ENV held for it before; every other
    variable reads as it did before the action. *)
Theorem numba_cache_env_lookup (i : NumbaCache.inputs) (r : runner) (k : string) :
  failed r = false ->
  (forall v, In (k, v) (NumbaCache.exported r) ->
     env_get k (NumbaCache.run i r) = v)
  /\ (~ In k [ "NUMBA_CACHE_DIR"; "NUMBA_CPU_NAME"; "NUMBA_CPU_FEATURES";
               "CACHING_CICD_RUNNING"; "CURRENT_DATE" ] ->
      env_get k (NumbaCache.run i r) = env_get k r).
Proof.
  intros Hr.
  destruct (numba_cache_run_fields i r Hr) as (He & _).
  unfold env_get. rewrite He, lookup_last_app. split.
  - intros v Hin. unfold NumbaCache.exported in *. simpl in Hin.
    destruct Hin as [H|[H|[H|[H|[H|[]]]]]]; injection H as <- <-; reflexivity.
  - intros Hk. unfold NumbaCache.exported. simpl in Hk. simpl.
    destruct (String.eqb_spec k "CURRENT_DATE"); [exfalso; apply Hk; subst k; auto 10|].
    destruct (String.eqb_spec k "CACHING_CICD_RUNNING"); [exfalso; apply Hk; subst k; auto 10|].
    destruct (String.eqb_spec k "NUMBA_CPU_FEATURES"); [exfalso; apply Hk; subst k; auto 10|].
    destruct (String.eqb_spec k "NUMBA_CPU_NAME"); [exfalso; apply Hk; subst k; auto 10|].
    destruct (String.eqb_spec k "NUMBA_CACHE_DIR"); [exfalso; apply Hk; subst k; auto 10|].
    reflexivity.
Qed.

Lemma numba_cache_env_lookup_witness :
  failed (set_env [("NUMBA_CPU_NAME", "host"); ("CI", "true")] sample_runner)
    = false
  /\ env_get "NUMBA_CPU_NAME"
       (NumbaCache.run sample_inputs
          (set_env [("NUMBA_CPU_NAME", "host"); ("CI", "true")] sample_runner))
     = "generic"
  /\ env_get "CI"
       (NumbaCache.run sample_inputs
          (set_env [("NUMBA_CPU_NAME", "host"); ("CI", "true")] sample_runner))
     = "true".
Proof.
  split; [reflexivity|]. split.
  - apply (proj1 (numba_cache_env_lookup sample_inputs
                    (set_env [("NUMBA_CPU_NAME", "host"); ("CI", "true")]
                       sample_runner) "NUMBA_CPU_NAME" eq_refl)).
    right. left. reflexivity.
  - apply (proj2 (numba_cache_env_lookup sample_inputs
                    (set_env [("NUMBA_CPU_NAME", "host"); ("CI", "true")]
                       sample_runner) "CI" eq_refl)).
    simpl. intros [H|[H|[H|[H|[H|[]]]]]]; discriminate H.
Defined.

(** X2: the directory the restore step fills is the one NUMBA_CACHE_DIR
    names after the action: when the restore finds an entry, reading that
    directory gives the archive of the entry; when it finds none, or when
    restore_cache is not 'true', the directory reads as before. *)
Theorem numba_cache_restores_into_cache_dir (i : NumbaCache.inputs) (r : runner) :
  failed r = false ->
  let r' := NumbaCache.run i r in
  let dir := env_get "NUMBA_CACHE_DIR" r' in
  let found :=
    cache_lookup (caches r)
      (NumbaCache.dated_key (NumbaCache.cache_name i)
         (NumbaCache.runner_os_input i) (NumbaCache.python_version i)
         (date_dmy (clock (ctx r))))
      [NumbaCache.key_prefix (NumbaCache.cache_name i)
         (NumbaCache.runner_os_input i) (NumbaCache.python_version i)] in
  dir = gh_workspace (ctx r) ++ "/.numba_cache"
  /\ read_dir dir (files r') =
       match found with
       | Some e =>
           if gh_eq (NumbaCache.restore_cache_input i) "true"
           then Some (snd e) else read_dir dir (files r)
       | None => read_dir dir (files r)
       end.
Proof.
  intros Hr r' dir found.
  assert (Hdir : dir = NumbaCache.cache_dir r).
  { unfold dir, r'.
    apply (proj1 (numba_cache_env_lookup i r "NUMBA_CACHE_DIR" Hr)).
    unfold NumbaCache.exported. left. reflexivity. }
  split; [exact Hdir|].
  destruct (numba_cache_run_fields i r Hr) as (_ & _ & Hf & _).
  fold r' in Hf. fold found in Hf. rewrite Hf, Hdir.
  destruct (gh_eq (NumbaCache.restore_cache_input i) "true");
    destruct found as [e|]; try reflexivity.
  apply read_write_dir.
Qed.

Lemma numba_cache_restores_into_cache_dir_witness :
  failed stocked_runner = false
  /\ read_dir (env_get "NUMBA_CACHE_DIR"
                 (NumbaCache.run sample_inputs stocked_runner))
       (files (NumbaCache.run sample_inputs stocked_runner)) =
     Some "archive of 1 November".
Proof.
  split; [reflexivity|].
  exact (proj2 (numba_cache_restores_into_cache_dir sample_inputs
                  stocked_runner eq_refl)).
Defined.

(** ** Retried installs *)

Lemma run_retry_exhausted (cmd : string) (m n : nat) (r : runner) :
  (forall k, n <= k < n + m -> cmd_ok (ctx r) cmd k = false) ->
  log (run_retry cmd m n r) = (log r ++ repeat (Cmd cmd) m)%list
  /\ failed (run_retry cmd m n r) = true.
Proof.
  revert n r. induction m as [|m IH]; intros n r H; simpl.
  - rewrite app_nil_r. split; reflexivity.
  - rewrite (H n) by lia.
    destruct (IH (S n) (add_log (Cmd cmd) r)) as [Hl Hf].
    { intros k Hk. apply H. lia. }
    rewrite Hl, Hf. simpl. rewrite <- app_assoc. split; reflexivity.
Qed.

Lemma run_retry_succeeds (cmd : string) (m n j : nat) (r : runner) :
  j < m ->
  (forall k, n <= k < n + j -> cmd_ok (ctx r) cmd k = false) ->
  cmd_ok (ctx r) cmd (n + j) = true ->
  log (run_retry cmd m n r) = (log r ++ repeat (Cmd cmd) (S j))%list
  /\ failed (run_retry cmd m n r) = failed r.
Proof.
  revert n j r. induction m as [|m IH]; intros n j r Hj Hfail Hok; [lia|].
  simpl. destruct j as [|j].
  - rewrite Nat.add_0_r in Hok. rewrite Hok. simpl. split; reflexivity.
  - rewrite (Hfail n) by lia.
    destruct (IH (S n) j (add_log (Cmd cmd) r)) as [Hl Hf].
    + lia.
    + intros k Hk. apply Hfail. lia.
    + replace (S n + j) with (n + S j) by lia. exact Hok.
    + rewrite Hl, Hf. simpl. rewrite <- app_assoc. split; reflexivity.
Qed.

(** X5: the final install of the cpu_all_extras action is run again until it
    succeeds, three times at most: when the attempt number j+1 is the first
    to succeed (j < 3) the command is logged j+1 times and the job goes on;
    when all three attempts fail it is logged three times and the job has
    failed. *)
Theorem final_install_retries (i : CpuAllExtras.inputs) (r : runner) :
  failed r = false ->
  let cmd := CpuAllExtras.install_command i in
  let r' := run_step (CpuAllExtras.install_dependencies i) r in
  (forall j, j < 3 ->
     (forall k, 1 <= k <= j -> cmd_ok (ctx r) cmd k = false) ->
     cmd_ok (ctx r) cmd (S j) = true ->
     log r' = (log r ++ repeat (Cmd cmd) (S j))%list /\ failed r' = false)
  /\ ((forall k, 1 <= k <= 3 -> cmd_ok (ctx r) cmd k = false) ->
      log r' = (log r ++ repeat (Cmd cmd) 3)%list /\ failed r' = true).
Proof.
  intros Hr cmd r'. unfold r', CpuAllExtras.install_dependencies.
  rewrite run_step_named by exact Hr. unfold run_body. fold cmd. split.
  - intros j Hj Hfail Hok.
    destruct (run_retry_succeeds cmd 3 1 j r Hj) as [Hl Hf].
    + intros k Hk. apply Hfail. lia.
    + exact Hok.
    + rewrite Hl, Hf. split; [reflexivity | exact Hr].
  - intros Hfail. apply run_retry_exhausted. intros k Hk. apply Hfail. lia.
Qed.

Lemma final_install_retries_witness :
  failed (fresh (flaky_context 1)) = false
  /\ log (run_step
            (CpuAllExtras.install_dependencies
               {| CpuAllExtras.python_version := None;
                  CpuAllExtras.additional_extras := Some "dev" |})
            (fresh (flaky_context 1))) =
     [ Cmd ("python -m pip install .[all_extras,dev]" ++ nl);
       Cmd ("python -m pip install .[all_extras,dev]" ++ nl) ].
Proof.
  split; [reflexivity|].
  refine (proj1 (proj1 (final_install_retries
            {| CpuAllExtras.python_version := None;
               CpuAllExtras.additional_extras := Some "dev" |}
            (fresh (flaky_context 1)) eq_refl) 1 _ _ _)).
  - lia.
  - intros k Hk. assert (k = 1) by lia. subst k. reflexivity.
  - reflexivity.
Defined.

(** X4: on a Linux runner with a python_version other than 3.13, when the
    install of tensorflow-cpu fails three times the cpu_all_extras action
    stops there: the job has failed, and neither torch nor the package
    itself is installed or even tried. *)
Theorem cpu_all_extras_stops_on_failure (i : CpuAllExtras.inputs) (r : runner) :
  failed r = false ->
  runner_os (ctx r) = Linux ->
  CpuAllExtras.python_version_input i <> "3.13" ->
  (forall k, 1 <= k <= 3 ->
     cmd_ok (ctx r) CpuAllExtras.tensorflow_command k = false) ->
  log (CpuAllExtras.run i r) =
    (log r ++ repeat (Cmd CpuAllExtras.tensorflow_command) 3)%list
  /\ failed (CpuAllExtras.run i r) = true.
Proof.
  intros Hr Hos Hv Hfail.
  change (CpuAllExtras.run i r) with
    (run_step (CpuAllExtras.install_dependencies i)
       (run_step CpuAllExtras.install_torch
          (run_step (CpuAllExtras.install_tensorflow i) r))).
  assert (H1 : run_step (CpuAllExtras.install_tensorflow i) r =
               run_retry CpuAllExtras.tensorflow_command 3 1 r).
  { unfold run_step, CpuAllExtras.install_tensorflow, guarded, when, success.
    simpl s_if. simpl s_body. rewrite Hr, os_is_linux, Hos. unfold gh_ne.
    rewrite gh_eq_exact by reflexivity.
    apply String.eqb_neq in Hv. rewrite Hv. reflexivity. }
  rewrite H1.
  destruct (run_retry_exhausted CpuAllExtras.tensorflow_command 3 1 r)
    as [Hl Hf].
  { intros k Hk. apply Hfail. lia. }
  set (r1 := run_retry CpuAllExtras.tensorflow_command 3 1 r) in *.
  rewrite (run_step_failed CpuAllExtras.install_torch r1 Hf).
  - rewrite (run_step_failed (CpuAllExtras.install_dependencies i) r1 Hf).
    + split; assumption.
    + simpl. unfold success. now rewrite Hf.
  - simpl. unfold when, success. now rewrite Hf.
Qed.

Lemma cpu_all_extras_stops_on_failure_witness :
  failed (fresh (flaky_context 3)) = false
  /\ log (CpuAllExtras.run
            {| CpuAllExtras.python_version := None;
               CpuAllExtras.additional_extras := Some "dev" |}
            (fresh (flaky_context 3))) =
     [ Cmd CpuAllExtras.tensorflow_command;
       Cmd CpuAllExtras.tensorflow_command;
       Cmd CpuAllExtras.tensorflow_command ].
Proof.
  split; [reflexivity|].
  refine (proj1 (cpu_all_extras_stops_on_failure
            {| CpuAllExtras.python_version := None;
               CpuAllExtras.additional_extras := Some "dev" |}
            (fresh (flaky_context 3)) eq_refl eq_refl _ _)).
  - discriminate.
  - intros k Hk. simpl.
    assert (Hk' : k = 1 \/ k = 2 \/ k = 3) by lia.
    destruct Hk' as [->|[->| ->]]; reflexivity.
Defined.

(** ** The extras of the cpu_all_extras install *)

Lemma append_nil_r (s : string) : s ++ "" = s.
Proof. induction s as [|c s IH]; simpl; [reflexivity | now rewrite IH]. Qed.

Lemma scan_extras_name (n rest cur : string) :
  plain_name n = true ->
  scan_extras (n ++ rest) true cur = scan_extras rest true (cur ++ n).
Proof.
  revert cur. induction n as [|c n IH]; intros cur Hn; simpl.
  - now rewrite append_nil_r.
  - simpl in Hn. apply andb_prop in Hn. destruct Hn as [Hc Hn].
    apply andb_prop in Hc. destruct Hc as [Hc H3].
    apply andb_prop in Hc. destruct Hc as [H1 H2].
    apply negb_true_iff in H1, H2, H3. rewrite H3, H1.
    rewrite (IH _ Hn), append_assoc. reflexivity.
Qed.

Lemma scan_extras_comma (s cur : string) :
  scan_extras (String "," s) true cur = cur :: scan_extras s true "".
Proof. reflexivity. Qed.

Lemma scan_extras_joined (n : string) (l : list string) (rest cur : string) :
  Forall (fun n => plain_name n = true /\ n <> "") (n :: l) ->
  scan_extras (join_commas (n :: l) ++ "]" ++ rest) true cur =
  cons (cur ++ n) (app l (scan_extras rest false "")).
Proof.
  revert n cur. induction l as [|m l IH]; intros n cur H.
  - inversion H as [|? ? [Hn _] _]; subst.
    change (join_commas [n]) with n.
    rewrite (scan_extras_name n _ cur Hn). reflexivity.
  - inversion H as [|? ? [Hn _] Hl]; subst.
    change (join_commas (n :: m :: l)) with (n ++ "," ++ join_commas (m :: l)).
    rewrite append_assoc, (scan_extras_name n _ cur Hn).
    change (("," ++ join_commas (m :: l)) ++ "]" ++ rest)
      with (String "," (join_commas (m :: l) ++ "]" ++ rest)).
    rewrite scan_extras_comma, (IH m "" Hl). reflexivity.
Qed.

(** X6: the install command of the cpu_all_extras action names exactly the
    group all_extras followed by the groups of the additional_extras input:
    for a comma-separated list of non-empty names without comma or bracket
    the extras of the command are all_extras and these names, in order; with
    the input empty or left out they are all_extras alone, with no empty
    group after it. *)
Theorem install_command_extras (version : option string) (names : list string) :
  Forall (fun n => plain_name n = true /\ n <> "") names ->
  extras_of (CpuAllExtras.install_command
               {| CpuAllExtras.python_version := version;
                  CpuAllExtras.additional_extras := Some (join_commas names) |})
    = ("all_extras" :: names)%list
  /\ extras_of (CpuAllExtras.install_command
                  {| CpuAllExtras.python_version := version;
                     CpuAllExtras.additional_extras := None |})
     = ["all_extras"].
Proof.
  intros H. split; [|reflexivity].
  destruct names as [|n l]; [reflexivity|].
  unfold CpuAllExtras.install_command, CpuAllExtras.additional_extras_input,
    CpuAllExtras.additional_extras.
  assert (Hne : gh_ne (join_commas (n :: l)) "" = true).
  { unfold gh_ne. rewrite gh_eq_exact by reflexivity.
    inversion H as [|? ? [_ Hn] _]; subst.
    destruct n as [|c n]; [contradiction|]. destruct l; reflexivity. }
  rewrite Hne. change (and_or true "," "") with ",".
  remember (join_commas (n :: l)) as joined eqn:Ej.
  unfold extras_of. simpl. rewrite Ej.
  change nl with ("" ++ nl)%string.
  change (String "]" ("" ++ nl)) with ("]" ++ nl).
  rewrite (scan_extras_joined n l nl "" H).
  change (scan_extras nl false "") with (@nil string).
  rewrite app_nil_r. reflexivity.
Qed.

Lemma install_command_extras_witness :
  extras_of (CpuAllExtras.install_command
               {| CpuAllExtras.python_version := None;
                  CpuAllExtras.additional_extras := Some "unstable_extras,dev" |})
    = ["all_extras"; "unstable_extras"; "dev"].
Proof.
  refine (proj1 (install_command_extras None ["unstable_extras"; "dev"] _)).
  repeat constructor; discriminate.
Defined.

(** ** The matrix of PR pytest *)

(** X7: the pytest job of PR pytest runs on every pair of one of the three
    runner images and one of the four python versions, except that on a
    pull request without the label 'full pytest actions' the pairs with
    python 3.11 are left out: nine combinations then, twelve otherwise. *)
Theorem pr_pytest_matrix (c : context) (o p : string) :
  (In (o, p) (PrPytest.pytest_matrix c) <->
     In o matrix_oses /\ In p matrix_pythons
     /\ ~ (PrPytest.pr_testing c = true /\ p = "3.11"))
  /\ length (PrPytest.pytest_matrix c) =
       (if PrPytest.pr_testing c then 9 else 12).
Proof.
  unfold PrPytest.pytest_matrix. split.
  - destruct (PrPytest.pr_testing c); split.
    + intros H. simpl in H.
      repeat (destruct H as [H|H]); try contradiction;
        injection H as <- <-;
        (split; [simpl; auto 10|]); (split; [simpl; auto 10|]);
        intros [_ Hp]; discriminate Hp.
    + intros [Ho [Hp Hn]]. simpl in Ho, Hp.
      destruct Ho as [<-|[<-|[<-|[]]]];
        destruct Hp as [<-|[<-|[<-|[<-|[]]]]];
        first [ exfalso; apply Hn; split; reflexivity | simpl; auto 15 ].
    + intros H. simpl in H.
      repeat (destruct H as [H|H]); try contradiction;
        injection H as <- <-;
        (split; [simpl; auto 10|]); (split; [simpl; auto 10|]);
        intros [Hb _]; discriminate Hb.
    + intros [Ho [Hp _]]. simpl in Ho, Hp.
      destruct Ho as [<-|[<-|[<-|[]]]];
        destruct Hp as [<-|[<-|[<-|[<-|[]]]]]; simpl; auto 15.
  - destruct (PrPytest.pr_testing c); reflexivity.
Qed.

(** ** The jobs that save and restore a cache *)

(** X9: actions/cache/save is used by three jobs only, run-notebook-examples,
    test-no-soft-deps and pytest of the periodic tests: a step of a job of
    the configuration, the calls of the composite actions unfolded, whose
    body is a cache save belongs to one of them, is named Save new cache and
    saves the directory <workspace>/.numba_cache. *)
Theorem only_periodic_jobs_save (w : workflow) (j : job) (js : job_step)
    (s : step) (r : runner) :
  In w workflows -> In j (w_jobs w) -> In js (j_steps j) ->
  In s (expand (ctx r) js) ->
  saves (s_body s r) = true ->
  w_name w = "Periodic tests"
  /\ In (j_id j) ["run-notebook-examples"; "test-no-soft-deps"; "pytest"]
  /\ s_name s = Some "Save new cache"
  /\ exists key, s_body s r = CacheSave (NumbaCache.cache_dir r) key.
Proof.
  intros Hw Hj Hjs Hs Hb. simpl in Hw.
  repeat (destruct Hw as [<-|Hw]); try contradiction; simpl in Hj;
    repeat (destruct Hj as [<-|Hj]); try contradiction; simpl in Hjs;
    repeat (destruct Hjs as [<-|Hjs]); try contradiction; simpl in Hs;
    repeat (destruct Hs as [<-|Hs]); try contradiction;
    try discriminate Hb;
    (split; [reflexivity|]); (split; [simpl; tauto|]);
    (split; [reflexivity|]); eexists; reflexivity.
Qed.

Lemma only_periodic_jobs_save_witness :
  w_name PeriodicTests.workflow = "Periodic tests"
  /\ In (j_id PeriodicTests.pytest)
       ["run-notebook-examples"; "test-no-soft-deps"; "pytest"].
Proof.
  destruct (only_periodic_jobs_save PeriodicTests.workflow PeriodicTests.pytest
              (PeriodicTests.save_new_cache (fun r =>
                 "numba-pytest-" ++ os_name (runner_os (ctx r)) ++ "-"
                 ++ matrix_python_version (ctx r) ++ "-"
                 ++ env_get "CURRENT_DATE" r))
              (named "Save new cache" (fun r =>
                 CacheSave (gh_workspace (ctx r) ++ "/.numba_cache")
                   ("numba-pytest-" ++ os_name (runner_os (ctx r)) ++ "-"
                    ++ matrix_python_version (ctx r) ++ "-"
                    ++ env_get "CURRENT_DATE" r)))
              sample_runner) as (A & B & _).
  - simpl. tauto.
  - simpl. tauto.
  - simpl; auto 20.
  - simpl. tauto.
  - reflexivity.
  - split; assumption.
Defined.

(** X10: the Restore cache step of the numba cache action runs in the jobs
    of PR pytest only: a step of a job, the calls of the composite actions
    unfolded, whose guard holds and whose body is a cache restore belongs to
    one of the four restoring jobs of PR pytest and comes from their call of
    the action (the periodic tests and the release pass restore_cache
    'false', which makes the guard of the step false). *)
Theorem only_pr_pytest_restores (w : workflow) (j : job) (js : job_step)
    (s : step) (r : runner) :
  In w workflows -> In j (w_jobs w) -> In js (j_steps j) ->
  In s (expand (ctx r) js) ->
  s_if s r = true -> restores (s_body s r) = true ->
  w_name w = "PR pytest"
  /\ exists name version,
       In (j, name, version) restoring_jobs
       /\ js = PrPytest.restore_numba_cache name version.
Proof.
  intros Hw Hj Hjs Hs Hif Hb. simpl in Hw.
  repeat (destruct Hw as [<-|Hw]); try contradiction; simpl in Hj;
    repeat (destruct Hj as [<-|Hj]); try contradiction; simpl in Hjs;
    repeat (destruct Hjs as [<-|Hjs]); try contradiction; simpl in Hs;
    repeat (destruct Hs as [<-|Hs]); try contradiction;
    try discriminate Hb;
    try (exfalso; revert Hif; unfold NumbaCache.restore, guarded, when;
         simpl; rewrite andb_false_r; discriminate);
    (split; [reflexivity|]); do 2 eexists; (split; [|reflexivity]);
    simpl; auto 10.
Qed.

Lemma only_pr_pytest_restores_witness :
  w_name PrPytest.workflow = "PR pytest".
Proof.
  refine (proj1 (only_pr_pytest_restores PrPytest.workflow PrPytest.doctests
                   (PrPytest.restore_numba_cache "doctests" (fun _ => "3.12"))
                   (NumbaCache.restore
                      {| NumbaCache.cache_name := "doctests";
                         NumbaCache.runner_os_input := "Linux";
                         NumbaCache.python_version := "3.12";
                         NumbaCache.restore_cache := None |})
                   sample_runner _ _ _ _ eq_refl eq_refl)).
  - simpl. tauto.
  - simpl. tauto.
  - simpl. tauto.
  - simpl; auto 20.
Defined.

Lemma gh_eq_refl (s : string) : gh_eq s s = true.
Proof. unfold gh_eq. apply String.eqb_refl. Qed.

Lemma gh_eq_sym (a b : string) : gh_eq a b = gh_eq b a.
Proof. unfold gh_eq. apply String.eqb_sym. Qed.

(** X8: on a pull request that carries the label 'no numba cache' (compared
    ignoring case), the step that calls the numba cache action in the jobs
    test-no-soft-deps, pytest, doctests and multithreaded-estimators of PR
    pytest is skipped: it leaves the runner as it was, so that none of the
    variables of the action is exported and nothing is restored. *)
Theorem no_numba_cache_label (j : job) (name : string)
    (version : context -> string) (r : runner) (label : string) :
  In (j, name, version) restoring_jobs ->
  gh_eq (gh_event_name (ctx r)) "pull_request" = true ->
  In label (gh_pr_labels (ctx r)) -> gh_eq label "no numba cache" = true ->
  In (PrPytest.restore_numba_cache name version) (j_steps j)
  /\ run_job_step (PrPytest.restore_numba_cache name version) r = r.
Proof.
  intros Hj He Hl Hg. split.
  - simpl in Hj. destruct Hj as [Hj|[Hj|[Hj|[Hj|[]]]]];
      injection Hj as <- <- <-; simpl; tauto.
  - unfold PrPytest.restore_numba_cache, run_job_step, when,
      PrPytest.wants_numba_cache, gh_ne.
    rewrite He.
    assert (Hc : contains (gh_pr_labels (ctx r)) "no numba cache" = true).
    { unfold contains. apply existsb_exists. exists label.
      split; [exact Hl|]. now rewrite gh_eq_sym. }
    rewrite Hc. simpl. now rewrite andb_false_r.
Qed.

Lemma no_numba_cache_label_witness :
  run_job_step (PrPytest.restore_numba_cache "pytest" matrix_python_version)
    unlabelled_cache_runner = unlabelled_cache_runner.
Proof.
  refine (proj2 (no_numba_cache_label PrPytest.pytest "pytest"
                   matrix_python_version unlabelled_cache_runner
                   "no numba cache" _ eq_refl _ eq_refl)).
  - simpl. tauto.
  - simpl. tauto.
Defined.

(** ** After a failure *)

Lemma failed_job_steps (l : list job_step) (r : runner) :
  Forall (fun js => forall r0, failed r0 = true -> run_job_step js r0 = r0) l ->
  failed r = true -> run_job_steps l r = r.
Proof.
  intros H Hf. induction H as [|js l Hjs Hl IH]; [reflexivity|].
  unfold run_job_steps in *. simpl. rewrite (Hjs r Hf). exact IH.
Qed.

Ltac skip_failed :=
  let r0 := fresh "r" in
  let Hfailed := fresh "Hfailed" in
  intros r0 Hfailed;
  match goal with
  | |- run_job_step ?js r0 = r0 =>
      let js' := eval hnf in js in change js with js'
  end;
  lazymatch goal with
  | |- run_job_step (Step _) _ = _ =>
      unfold run_job_step; apply run_step_failed;
      [ exact Hfailed
      | simpl; unfold when, success; rewrite Hfailed; reflexivity ]
  | |- run_job_step (Call _ ?cond _ _) _ = _ =>
      unfold run_job_step; replace (cond r0) with false;
      [ reflexivity | unfold when, success; rewrite Hfailed; reflexivity ]
  end.

(** X11: once a job has failed, none of its later steps runs: every job of
    the configuration other than pre-commit-auto-update leaves a failed
    runner exactly as it is.  The job pre-commit-auto-update still runs its
    two steps guarded by always(), the app token and the pull request, and
    stays failed. *)
Theorem failed_jobs_stop (w : workflow) (j : job) (r : runner) :
  In w workflows -> In j (w_jobs w) ->
  failed r = true ->
  (j_id j <> "pre-commit-auto-update" -> run_job j r = r)
  /\ (j_id j = "pre-commit-auto-update" ->
      log (run_job j r) =
        (log r ++ [ Act "actions/create-github-app-token@v2";
                    Act "peter-evans/create-pull-request@v7" ])%list
      /\ failed (run_job j r) = true).
Proof.
  intros Hw Hj Hf. simpl in Hw.
  repeat (destruct Hw as [<-|Hw]); try contradiction; simpl in Hj;
    repeat (destruct Hj as [<-|Hj]); try contradiction;
    (split; [intros Hid | intros Hid; try discriminate Hid]);
    try (exfalso; apply Hid; reflexivity);
    try (unfold run_job; apply failed_job_steps; [|exact Hf];
         simpl j_steps;
         repeat (apply Forall_cons; [skip_failed|]); apply Forall_nil).
  unfold run_job, run_job_steps. simpl j_steps.
  destruct r as [c e p f ca l fl]. simpl in Hf. subst fl.
  unfold fold_left, run_job_step, run_step. simpl.
  destruct (action_ok c "actions/create-github-app-token@v2"); simpl;
    destruct (action_ok c "peter-evans/create-pull-request@v7"); simpl;
    rewrite <- app_assoc; split; reflexivity.
Qed.

Lemma failed_jobs_stop_witness :
  run_job PeriodicTests.pytest (fail stocked_runner) = fail stocked_runner.
Proof.
  apply (proj1 (failed_jobs_stop PeriodicTests.workflow PeriodicTests.pytest
                  (fail stocked_runner)
                  (or_introl eq_refl)
                  (or_intror (or_intror (or_intror (or_intror (or_intror
                     (or_introl eq_refl))))))
                  eq_refl)).
  discriminate.
Defined.

(** ** Cache keys of different jobs *)

(** X12: the caches of different jobs, runner systems and python versions do
    not mix: the fallback prefix that a restoring job of PR pytest passes
    matches the key under which a saving job of the periodic tests saves,
    whatever the day, only when the two jobs use the same cache name, run on
    the same runner OS and use the same python version (the versions being
    those of the matrix). *)
Theorem cache_keys_apart (j1 j2 : job) (name1 name2 : string)
    (v1 v2 : context -> string) (c1 c2 : context) (o1 o2 : os) (day : string) :
  In (j1, name1, v1) PeriodicTests.saving_jobs ->
  In (j2, name2, v2) restoring_jobs ->
  In (v1 c1) matrix_pythons -> In (v2 c2) matrix_pythons ->
  String.prefix (NumbaCache.key_prefix name2 (os_name o2) (v2 c2))
    (NumbaCache.dated_key name1 (os_name o1) (v1 c1) day) = true ->
  name1 = name2 /\ o1 = o2 /\ v1 c1 = v2 c2.
Proof.
  intros H1 H2 Hv1 Hv2 Hp.
  simpl in H1. destruct H1 as [H1|[H1|[H1|[]]]]; injection H1 as <- <- <-;
    simpl in H2; destruct H2 as [H2|[H2|[H2|[H2|[]]]]];
    injection H2 as <- <- <-;
    simpl in Hv1; destruct Hv1 as [E1|[E1|[E1|[E1|[]]]]];
    simpl in Hv2; destruct Hv2 as [E2|[E2|[E2|[E2|[]]]]];
    try discriminate E1; try discriminate E2;
    try rewrite <- E1 in *; try rewrite <- E2 in *;
    destruct o1, o2;
    first [ repeat split; reflexivity
          | exfalso; vm_compute in Hp; discriminate Hp ].
Qed.

Lemma cache_keys_apart_witness :
  String.prefix (NumbaCache.key_prefix "pytest" "Linux" "3.12")
    (NumbaCache.dated_key "pytest" "Linux" "3.12" "01/11/2026") = true
  /\ ("pytest" = "pytest" /\ Linux = Linux /\ "3.12" = "3.12").
Proof.
  split; [reflexivity|].
  apply (cache_keys_apart PeriodicTests.pytest PrPytest.pytest
           "pytest" "pytest" matrix_python_version matrix_python_version
           sample_context sample_context Linux Linux "01/11/2026").
  - simpl. tauto.
  - simpl. tauto.
  - simpl. tauto.
  - simpl. tauto.
  - reflexivity.
Defined.

(** ** Concurrency groups of different workflows and branches *)

Lemma start_keeps_other_groups (id : nat) (w : workflow) (c : context)
    (st : Engine.state) (r : Engine.run) :
  In r (Engine.in_progress st) ->
  (forall g, Engine.group_of w c = Some g -> Engine.in_group g r = false) ->
  In r (Engine.in_progress (Engine.start id w c st)).
Proof.
  intros Hin Hg. unfold Engine.start.
  destruct (Engine.group_of w c) as [g|] eqn:Eg; [|right; exact Hin].
  destruct (Engine.cancels w).
  - right. unfold Engine.others. apply filter_In. split; [exact Hin|].
    now rewrite (Hg g eq_refl).
  - destruct (existsb (Engine.in_group g) (Engine.in_progress st));
      [exact Hin | right; exact Hin].
Qed.

Lemma append_inj_l (a x y : string) : a ++ x = a ++ y -> x = y.
Proof.
  induction a as [|c a IH]; simpl; intros H; [exact H|].
  injection H as H. exact (IH H).
Qed.

(** X13: runs of different workflows never share a concurrency group, so
    starting a run of one workflow cancels no run of another: a run in
    progress of workflow w1 is still in progress after a run of a workflow
    w2 of another name starts (github.workflow being the name of the
    workflow of each run). *)
Theorem workflows_do_not_cancel_each_other (w1 w2 : workflow)
    (c1 c2 : context) (st : Engine.state) (id1 id2 : nat) :
  In w1 workflows -> In w2 workflows ->
  w_name w1 <> w_name w2 ->
  gh_workflow c1 = w_name w1 -> gh_workflow c2 = w_name w2 ->
  In {| Engine.run_id := id1; Engine.run_group := Engine.group_of w1 c1 |}
     (Engine.in_progress st) ->
  In {| Engine.run_id := id1; Engine.run_group := Engine.group_of w1 c1 |}
     (Engine.in_progress (Engine.start id2 w2 c2 st)).
Proof.
  intros H1 H2 Hn E1 E2 Hin. apply start_keeps_other_groups; [exact Hin|].
  intros g Hg. unfold Engine.in_group. simpl Engine.run_group.
  destruct (Engine.group_of w1 c1) as [g1|] eqn:Hg1; [|reflexivity].
  apply String.eqb_neq. intros ->.
  simpl in H1, H2.
  repeat (destruct H1 as [<-|H1]); try contradiction;
    try discriminate Hg1;
    repeat (destruct H2 as [<-|H2]); try contradiction;
    try discriminate Hg;
    try (apply Hn; reflexivity);
    unfold Engine.group_of in Hg, Hg1; simpl in Hg, Hg1, E1, E2;
    rewrite E1 in Hg1; rewrite E2 in Hg;
    injection Hg as Hg; injection Hg1 as Hg1;
    rewrite <- Hg1 in Hg; simpl in Hg; discriminate Hg.
Qed.

Lemma workflows_do_not_cancel_each_other_witness :
  In {| Engine.run_id := 1;
        Engine.run_group := Some "PR pytest-fix-docs" |}
     (Engine.in_progress
        (Engine.start 2 PrTypecheck.workflow
           (on_branch "PR typecheck" "fix-docs" sample_context)
           (Engine.run_events
              [ Engine.Start 1 PrPytest.workflow sample_context ]))).
Proof.
  refine (workflows_do_not_cancel_each_other
            PrPytest.workflow PrTypecheck.workflow
            sample_context (on_branch "PR typecheck" "fix-docs" sample_context)
            (Engine.run_events
               [ Engine.Start 1 PrPytest.workflow sample_context ])
            1 2 _ _ _ eq_refl eq_refl _).
  - simpl. tauto.
  - simpl. tauto.
  - discriminate.
  - left. reflexivity.
Defined.

Lemma lower_app (a b : string) : lower (a ++ b) = lower a ++ lower b.
Proof. induction a as [|c a IH]; simpl; [reflexivity | now rewrite IH]. Qed.

(** X14: in PR pytest and PR typecheck the concurrency group is made of the
    workflow name and the branch (the head ref of a pull request, else the
    ref that was pushed).  For two branches whose names differ even when
    case is ignored, the groups of the two runs differ even when case is
    ignored, and a run for one branch cancels no run of the same workflow
    for the other. *)
Theorem branches_do_not_cancel_each_other (w : workflow) (c1 c2 : context)
    (st : Engine.state) (id1 id2 : nat) :
  In w [PrPytest.workflow; PrTypecheck.workflow] ->
  gh_workflow c1 = gh_workflow c2 ->
  gh_eq (or_else (gh_head_ref c1) (gh_ref c1))
        (or_else (gh_head_ref c2) (gh_ref c2)) = false ->
  In {| Engine.run_id := id1; Engine.run_group := Engine.group_of w c1 |}
     (Engine.in_progress st) ->
  (exists g1 g2,
     Engine.group_of w c1 = Some g1 /\ Engine.group_of w c2 = Some g2
     /\ gh_eq g1 g2 = false)
  /\ In {| Engine.run_id := id1; Engine.run_group := Engine.group_of w c1 |}
        (Engine.in_progress (Engine.start id2 w c2 st)).
Proof.
  intros Hw Ew Hb Hin.
  assert (Hg : exists g1 g2,
            Engine.group_of w c1 = Some g1 /\ Engine.group_of w c2 = Some g2
            /\ gh_eq g1 g2 = false).
  { destruct Hw as [<-|[<-|[]]]; unfold Engine.group_of; simpl;
      do 2 eexists; (split; [reflexivity|]); (split; [reflexivity|]);
      unfold gh_eq in *; rewrite !lower_app, Ew;
      apply String.eqb_neq; intros H; apply String.eqb_neq in Hb; apply Hb;
      apply append_inj_l in H; apply (append_inj_l (lower "-")) in H;
      exact H. }
  split; [exact Hg|].
  destruct Hg as (g1 & g2 & E1 & E2 & Hne).
  apply start_keeps_other_groups; [exact Hin|].
  intros g Hg. rewrite E2 in Hg. injection Hg as <-.
  unfold Engine.in_group. simpl Engine.run_group. rewrite E1.
  apply String.eqb_neq. intros ->. rewrite gh_eq_refl in Hne. discriminate Hne.
Qed.

Lemma branches_do_not_cancel_each_other_witness :
  In {| Engine.run_id := 1;
        Engine.run_group := Some "PR pytest-fix-docs" |}
     (Engine.in_progress
        (Engine.start 2 PrPytest.workflow
           (on_branch "PR pytest" "new-classifier" sample_context)
           (Engine.run_events
              [ Engine.Start 1 PrPytest.workflow sample_context ]))).
Proof.
  refine (proj2 (branches_do_not_cancel_each_other
            PrPytest.workflow
            sample_context (on_branch "PR pytest" "new-classifier" sample_context)
            (Engine.run_events
               [ Engine.Start 1 PrPytest.workflow sample_context ])
            1 2 _ eq_refl eq_refl _)).
  - simpl. tauto.
  - left. reflexivity.
Defined.

(** ** The wheel the release tests *)

(** Runs the next step of a job on a runner given by its fields. *)
Ltac run_next Hcmd Hact :=
  rewrite run_job_steps_cons;
  match goal with
  | |- context [run_job_step ?js ?x] =>
      let y := fresh "y" in
      let E := fresh "E" in
      remember (run_job_step js x) as y eqn:E;
      cbv -[app lookup_last String.append] in E;
      rewrite ?lookup_last_app in E;
      cbv -[app lookup_last String.append] in E;
      rewrite ?Hact, ?Hcmd in E;
      cbv -[app lookup_last String.append] in E;
      subst y
  end.

(** X15: on a Linux or macOS runner where nothing fails, the test-wheels job
    of the release installs the wheel that ls found in ./dist, the name
    passed from the step that lists it to the install through WHEELNAME in
    GITHUB_ENV, with the extras all_extras and dev; the PowerShell variant
    of the install is not run.  The job runs, in this order: checkout,
    setup-python, free-disk-space, set-swap-space (on Linux only),
    download-artifact, the install, pip list and the tests. *)
Theorem release_tests_the_listed_wheel (r : runner) :
  failed r = false -> all_ok (ctx r) ->
  runner_os (ctx r) <> Windows ->
  log (run_job Release.test_wheels r) =
    (log r
     ++ [ Act "actions/checkout@v4"; Act "actions/setup-python@v5";
          Act "jlumbroso/free-disk-space@v1.3.1" ]
     ++ (match runner_os (ctx r) with
         | Linux => [ Act "pierotofy/set-swap-space@v1.0" ]
         | _ => []
         end)
     ++ [ Act "actions/download-artifact@v4";
          Cmd (String.append "python -m pip install "
                 (String.append dq
                    (String.append (wheel_listing (ctx r))
                       (String.append "[all_extras,dev]" dq))));
          Cmd "python -m pip list";
          Cmd pytest_logical ])%list
  /\ failed (run_job Release.test_wheels r) = false.
Proof.
  intros Hr [Hcmd Hact] Hos.
  destruct r as [c e p f ca l fl]. simpl in Hr. subst fl.
  destruct c. simpl in Hcmd, Hact, Hos. unfold run_job. simpl j_steps.
  match goal with o : os |- _ => destruct o end; [|contradiction|].
  - do 12 (run_next Hcmd Hact). rewrite run_job_steps_nil.
    split; [|reflexivity].
    cbv [log ctx runner_os wheel_listing]. rewrite <- !app_assoc.
    reflexivity.
  - do 12 (run_next Hcmd Hact). rewrite run_job_steps_nil.
    split; [|reflexivity].
    cbv [log ctx runner_os wheel_listing]. rewrite <- !app_assoc.
    reflexivity.
Qed.

Lemma release_tests_the_listed_wheel_witness :
  failed sample_runner = false
  /\ all_ok (ctx sample_runner)
  /\ log (run_job Release.test_wheels sample_runner) =
       [ Act "actions/checkout@v4"; Act "actions/setup-python@v5";
         Act "jlumbroso/free-disk-space@v1.3.1";
         Act "pierotofy/set-swap-space@v1.0";
         Act "actions/download-artifact@v4";
         Cmd ("python -m pip install " ++ dq
              ++ "./dist/aeon-1.2.0-py3-none-any.whl[all_extras,dev]" ++ dq);
         Cmd "python -m pip list";
         Cmd "python -m pytest -n logical" ].
Proof.
  split; [reflexivity|].
  assert (Hok : all_ok (ctx sample_runner)) by (split; intros; reflexivity).
  split; [exact Hok|].
  refine (proj1 (release_tests_the_listed_wheel sample_runner eq_refl Hok _)).
  discriminate.
Defined.

(** ** The day in the cache key *)

Lemma digit_mod (a b : nat) : digit a = digit b -> a mod 10 = b mod 10.
Proof.
  unfold digit. intros H.
  apply (f_equal (fun s => match s with
                           | String c _ => nat_of_ascii c
                           | EmptyString => 0
                           end)) in H.
  cbv beta iota in H.
  assert (Ha : a mod 10 < 10) by (apply Nat.mod_upper_bound; discriminate).
  assert (Hb : b mod 10 < 10) by (apply Nat.mod_upper_bound; discriminate).
  rewrite !nat_ascii_embedding in H by lia. lia.
Qed.

Lemma two_digits (a b : nat) :
  a < 100 -> b < 100 ->
  (a / 10) mod 10 = (b / 10) mod 10 -> a mod 10 = b mod 10 -> a = b.
Proof.
  intros Ha Hb H1 H0.
  assert (a / 10 < 10) by (apply Nat.Div0.div_lt_upper_bound; lia).
  assert (b / 10 < 10) by (apply Nat.Div0.div_lt_upper_bound; lia).
  rewrite !Nat.mod_small in H1 by assumption.
  rewrite (Nat.div_mod_eq a 10), (Nat.div_mod_eq b 10). lia.
Qed.

Lemma four_digits (a b : nat) :
  a < 100 * 100 -> b < 100 * 100 ->
  (a / 1000) mod 10 = (b / 1000) mod 10 ->
  (a / 100) mod 10 = (b / 100) mod 10 ->
  (a / 10) mod 10 = (b / 10) mod 10 -> a mod 10 = b mod 10 -> a = b.
Proof.
  intros Ha Hb H3 H2 H1 H0.
  assert (E : forall n, n / 10 = 10 * (n / 100) + (n / 10) mod 10).
  { intros n. rewrite (Nat.div_mod_eq (n / 10) 10) at 1.
    rewrite Nat.Div0.div_div. reflexivity. }
  assert (F : forall n, n / 100 = 10 * (n / 1000) + (n / 100) mod 10).
  { intros n. rewrite (Nat.div_mod_eq (n / 100) 10) at 1.
    rewrite Nat.Div0.div_div. reflexivity. }
  assert (a / 1000 < 10) by (apply Nat.Div0.div_lt_upper_bound; lia).
  assert (b / 1000 < 10) by (apply Nat.Div0.div_lt_upper_bound; lia).
  rewrite !Nat.mod_small in H3 by assumption.
  rewrite (Nat.div_mod_eq a 10), (Nat.div_mod_eq b 10).
  rewrite (E a), (E b), (F a), (F b). lia.
Qed.

Lemma digit_append_inj (a b : nat) (s t : string) :
  digit a ++ s = digit b ++ t -> a mod 10 = b mod 10 /\ s = t.
Proof.
  intros H. split.
  - apply digit_mod.
    exact (f_equal (fun x => match x with
                             | String c _ => String c EmptyString
                             | EmptyString => EmptyString
                             end) H).
  - exact (f_equal (fun x => match x with
                             | String _ r => r
                             | EmptyString => EmptyString
                             end) H).
Qed.

Lemma date_dmy_inj (d1 d2 : date) :
  d_day d1 < 100 -> d_month d1 < 100 -> d_year d1 < 100 * 100 ->
  d_day d2 < 100 -> d_month d2 < 100 -> d_year d2 < 100 * 100 ->
  date_dmy d1 = date_dmy d2 -> d1 = d2.
Proof.
  intros A1 B1 C1 A2 B2 C2 H. unfold date_dmy in H.
  apply digit_append_inj in H. destruct H as [H1 H].
  apply digit_append_inj in H. destruct H as [H2 H].
  apply (append_inj_l "/") in H.
  apply digit_append_inj in H. destruct H as [H3 H].
  apply digit_append_inj in H. destruct H as [H4 H].
  apply (append_inj_l "/") in H.
  apply digit_append_inj in H. destruct H as [H5 H].
  apply digit_append_inj in H. destruct H as [H6 H].
  apply digit_append_inj in H. destruct H as [H7 H].
  apply digit_mod in H.
  destruct d1 as [a1 b1 c1], d2 as [a2 b2 c2].
  cbv [d_day d_month d_year] in *.
  rewrite (two_digits a1 a2 A1 A2 H1 H2), (two_digits b1 b2 B1 B2 H3 H4),
    (four_digits c1 c2 C1 C2 H5 H6 H7 H).
  reflexivity.
Qed.

(** X16: the dated key tells the days apart: for two dates (day and month
    below 100, year below 10000) the keys numba-<cache_name>-<runner_os>-
    <python_version>-<dd/mm/YYYY> of one job are equal only when the dates
    are, so the cache saved on one day never takes the key of another day. *)
Theorem dated_keys_differ_by_day (name os_ version : string) (d1 d2 : date) :
  d_day d1 < 100 -> d_month d1 < 100 -> d_year d1 < 100 * 100 ->
  d_day d2 < 100 -> d_month d2 < 100 -> d_year d2 < 100 * 100 ->
  NumbaCache.dated_key name os_ version (date_dmy d1) =
  NumbaCache.dated_key name os_ version (date_dmy d2) ->
  d1 = d2.
Proof.
  intros A1 B1 C1 A2 B2 C2 H. unfold NumbaCache.dated_key in H.
  apply append_inj_l in H. now apply date_dmy_inj.
Qed.

Lemma dated_keys_differ_by_day_witness :
  NumbaCache.dated_key "pytest" "Linux" "3.12"
    (date_dmy {| d_day := 1; d_month := 11; d_year := 2026 |}) <>
  NumbaCache.dated_key "pytest" "Linux" "3.12"
    (date_dmy {| d_day := 2; d_month := 11; d_year := 2026 |}).
Proof.
  intros H.
  apply (dated_keys_differ_by_day "pytest" "Linux" "3.12") in H;
    simpl; try lia.
  discriminate H.
Defined.

(** ** The jobs of PR pytest around the numba cache *)

Lemma quiet_call_plain (n : string) (cond : runner -> bool) (a : string)
    (steps : context -> list step) :
  (forall c s, In s (steps c) -> forall r, plain (s_body s r) = true) ->
  quiet (Call n cond a steps).
Proof.
  intros Hp r Hr Hok. simpl. destruct (cond r); [|repeat split; assumption].
  specialize (Hp (ctx r)). revert Hp.
  generalize (steps (ctx r)) as l. intros l. revert r Hr Hok.
  induction l as [|s l IH]; intros r Hr Hok Hp.
  - repeat split; assumption.
  - unfold run_steps in *. simpl fold_left.
    destruct (quiet_plain s (Hp s (or_introl eq_refl)) r Hr Hok)
      as (A & B & C & D & E). simpl in A, B, C, D, E.
    assert (Hok' : all_ok (ctx (run_step s r))) by now rewrite A.
    destruct (IH (run_step s r) E Hok') as (A' & B' & C' & D' & E').
    { intros s' Hs'. apply Hp. right. exact Hs'. }
    repeat split; congruence.
Qed.





(** ** Coverage runs *)

(** X18: the codecov jobs of the periodic tests and of PR pytest have the
    steps checkout, setup-python, Disable Numba JIT, the install, pip list,
    the run python -m pytest -n logical with coverage and a timeout of 1800
    seconds, and the upload.  On the runner as checkout and setup-python
    have left it, with the job not failed and nothing failing: when the test
    step starts, the steps from Disable Numba JIT on have appended the one
    line NUMBA_DISABLE_JIT = 1 to GITHUB_ENV, the variable reads 1, and no
    cache has been restored or saved. *)
Theorem codecov_disables_jit (j : job) (r : runner) :
  In j [PeriodicTests.codecov; PrPytest.codecov] ->
  failed r = false -> all_ok (ctx r) ->
  exists install,
    j_steps j =
      [ checkout; setup_python_312; disable_numba_jit; install;
        show_dependencies; run_tests pytest_codecov; upload_codecov ]
    /\ let r' := run_job_steps
                   [disable_numba_jit; install; show_dependencies] r in
       env r' = (env r ++ [("NUMBA_DISABLE_JIT", "1")])%list
       /\ env_get "NUMBA_DISABLE_JIT" r' = "1"
       /\ files r' = files r
       /\ caches r' = caches r
       /\ failed r' = false.
Proof.
  intros Hj Hr Hok.
  assert (Hfirst : run_job_step disable_numba_jit r =
                   set_env (env r ++ [("NUMBA_DISABLE_JIT", "1")]) r).
  { unfold disable_numba_jit, run_job_step. rewrite run_step_named by exact Hr.
    simpl. unfold set_env. simpl. now rewrite Hr. }
  assert (Hrest : forall install, quiet install ->
            let r' := run_job_steps
                        [disable_numba_jit; install; show_dependencies] r in
            env r' = (env r ++ [("NUMBA_DISABLE_JIT", "1")])%list
            /\ env_get "NUMBA_DISABLE_JIT" r' = "1"
            /\ files r' = files r
            /\ caches r' = caches r
            /\ failed r' = false).
  { intros install Hq r'. unfold r'. rewrite run_job_steps_cons, Hfirst.
    destruct (quiet_steps [install; show_dependencies]
                (set_env (env r ++ [("NUMBA_DISABLE_JIT", "1")]) r))
      as (A & B & C & D & E).
    - apply Forall_cons; [exact Hq|]. apply Forall_cons; [|apply Forall_nil].
      apply quiet_plain. intros ?. reflexivity.
    - exact Hr.
    - exact Hok.
    - split; [exact B|]. split.
      + unfold env_get. rewrite B. simpl env. rewrite lookup_last_app.
        reflexivity.
      + split; [exact C|]. split; [exact D | exact E]. }
  destruct Hj as [<-|[<-|[]]].
  - eexists. split; [reflexivity|]. apply Hrest.
    apply quiet_plain. intros ?. reflexivity.
  - eexists. split; [reflexivity|]. apply Hrest.
    apply quiet_call_plain. intros c s Hin r0. simpl in Hin.
    repeat (destruct Hin as [<-|Hin]); try contradiction; reflexivity.
Qed.

Lemma codecov_disables_jit_witness :
  failed sample_runner = false
  /\ all_ok (ctx sample_runner)
  /\ exists install,
       env_get "NUMBA_DISABLE_JIT"
         (run_job_steps [disable_numba_jit; install; show_dependencies]
            sample_runner) = "1".
Proof.
  split; [reflexivity|].
  assert (Hok : all_ok (ctx sample_runner)) by (split; intros; reflexivity).
  split; [exact Hok|].
  destruct (codecov_disables_jit PrPytest.codecov sample_runner
              (or_intror (or_introl eq_refl)) eq_refl Hok)
    as (install & _ & _ & H & _).
  exists install. exact H.
Defined.
